(** * Asteroid Insights Dashboard ([app2.py]): data pipeline

    A shallow embedding of the dashboard script: the static loader
    ([load_static_data]), the live fetcher ([fetch_nasa_data]), the row-wise
    concatenation, the hazard filter and the CSV export, with the pandas and
    Python operations they call modelled as executable functions.

    Python values are an inductive type; exceptions are the [Err] results of
    an error monad; a DataFrame is its column labels and its labelled rows.
    Floating-point numbers are kept abstract (class [FloatOps]): the script
    only moves them around, parses them and compares the hazard flag with
    [True] and [False]. The file on disk and the HTTP exchange are inputs:
    the loader starts from the frame [pd.read_csv] returns, the fetcher from
    the parsed JSON body. The drawing of the charts is outside the model. *)

From Stdlib Require Import Ascii String.
From stdpp Require Import base option list strings numbers pretty.

Open Scope string_scope.
Open Scope list_scope.

(** ** Exceptions and the error monad *)

Inductive exn :=
  | KeyError | IndexError | TypeError | ValueError | OverflowError
  | IndexingError | ParserError | EmptyDataError | UnicodeEncodeError.

Inductive result (A : Type) :=
  | Ok (a : A)
  | Err (e : exn).
Arguments Ok {A} a.
Arguments Err {A} e.

#[global] Instance result_ret : MRet result := λ A a, Ok a.
#[global] Instance result_bind : MBind result :=
  λ A B f m, match m with Ok a => f a | Err e => Err e end.
#[global] Instance result_fmap : FMap result :=
  λ A B f m, match m with Ok a => Ok (f a) | Err e => Err e end.

Definition of_option {A} (e : exn) (o : option A) : result A :=
  match o with Some a => Ok a | None => Err e end.

Definition is_Ok {A} (m : result A) : Prop := ∃ a, m = Ok a.

(** ** Floating point, kept abstract *)

Class FloatOps (F : Type) := {
  float_eq_dec :: EqDecision F;
  (** [float(True)] is [1.0], [float(False)] is [0.0] *)
  float_of_bool : bool → F;
  (** [float(n)] for a Python int; [None] is OverflowError *)
  float_of_int : Z → option F;
  (** [float(s)] for a Python str; [None] is ValueError *)
  float_of_str : string → option F;
  (** the text parser of [pd.to_numeric]; [None] when the text is not a
      number (or parses to NaN, which is the missing value) *)
  to_numeric_str : string → option F;
  (** [str(x)], as written by [to_csv] *)
  float_repr : F → string;
}.

(** ** Python values

    The values a parsed JSON document and a DataFrame cell can hold.
    [VNone] stands for [None] and for NaN, the missing value of pandas.
    A dict keeps its insertion order; its keys are strings (JSON). *)

#[warnings="-register-all"]
Inductive value {F : Type} :=
  | VNone
  | VBool (b : bool)
  | VInt (z : Z)
  | VFloat (x : F)
  | VStr (s : string)
  | VList (l : list value)
  | VDict (d : list (string * value)).
Arguments value : clear implicits.

Section Pipeline.
Context {F : Type} `{!FloatOps F}.

Abbreviation value := (value F).

(** [v == True] and [v == False] of Python: [bool] is a subtype of [int], so
    [1 == True] and [1.0 == True]; NaN, None, strings and containers are
    equal to neither. *)
Definition py_eq_bool (v : value) (b : bool) : bool :=
  match v with
  | VBool c => bool_decide (c = b)
  | VInt z => bool_decide (z = (if b then 1 else 0)%Z)
  | VFloat x => bool_decide (x = float_of_bool b)
  | VNone | VStr _ | VList _ | VDict _ => false
  end.

(** ** DataFrames

    A frame is its column labels and its rows, each row with its index label
    and one cell per column. The labels of a frame are distinct ([wf_df]):
    read_csv renames repeated header fields and the fetcher's records have
    fixed keys. A cell holds the Python value; the dtype of a column is
    read off its cells where an operation depends on it (see [dtype_of]). *)

Record DataFrame := mkDataFrame {
  columns : list string;
  (** each row: its index label and its cells, one per column *)
  rows : list (nat * list value);
}.

Definition wf_df (df : DataFrame) : Prop :=
  NoDup (columns df) ∧
  Forall (λ r, length r.2 = length (columns df)) (rows df).

(** position of a label in the column index *)
Definition col_pos (c : string) (cols : list string) : option nat :=
  fst <$> list_find (λ x, x = c) cols.

(** the cell of row [r] under column [c]; outside the frame there is no
    value *)
Definition cell_at (cols : list string) (r : list value) (c : string) : value :=
  match col_pos c cols with
  | Some j => default VNone (r !! j)
  | None => VNone
  end.

(** [df[c]]: the Series of a column, KeyError when the label is absent *)
Definition getitem_col (df : DataFrame) (c : string) : result (list value) :=
  match col_pos c (columns df) with
  | Some j => Ok (map (λ r, default VNone (r.2 !! j)) (rows df))
  | None => Err KeyError
  end.

(** [s == b]: the elementwise comparison, a boolean Series *)
Definition series_eq_bool (s : list value) (b : bool) : list bool :=
  map (λ v, py_eq_bool v b) s.

Fixpoint select {A} (mask : list bool) (l : list A) : list A :=
  match mask, l with
  | b :: mask, x :: l => if b then x :: select mask l else select mask l
  | _, _ => []
  end.

(** [df[mask]]: boolean indexing keeps the rows whose mask entry is True,
    with their labels and cells; the mask must cover the frame *)
Definition getitem_mask (df : DataFrame) (mask : list bool) : result DataFrame :=
  if decide (length mask = length (rows df))
  then Ok {| columns := columns df; rows := select mask (rows df) |}
  else Err IndexingError.

(** ** The hazard filter (lines 58-62) *)

Definition hazard_column : string := "is_potentially_hazardous_asteroid".

Definition options : list string := ["All"; "Yes"; "No"].

(** [df[df['is_potentially_hazardous_asteroid'] == b]] *)
Definition filter_eq (b : bool) (df : DataFrame) : result DataFrame :=
  s ← getitem_col df hazard_column;
  getitem_mask df (series_eq_bool s b).

Definition hazard_filter (selection : string) (combined_df : DataFrame)
  : result DataFrame :=
  if decide (selection = "Yes") then filter_eq true combined_df
  else if decide (selection = "No") then filter_eq false combined_df
  else Ok combined_df.

(** The hazard flag of a row, and what it is to be true or false. *)
Definition hazard_flag (df : DataFrame) (r : nat * list value) : value :=
  cell_at (columns df) r.2 hazard_column.

Definition flag_is (b : bool) (df : DataFrame) (r : nat * list value) : Prop :=
  py_eq_bool (hazard_flag df r) b = true.

#[global] Instance flag_is_dec b df r : Decision (flag_is b df r) :=
  decide (py_eq_bool (hazard_flag df r) b = true).

(** ** Column dtypes

    A cell holds the Python value. The dtype pandas gives a column is read
    off its cells: Booleans only, ints of 64 bits only (signed, else
    unsigned), numbers and missing values (floats: an int cell of such a
    column stands for the float equal to it), anything else (objects). An
    int beyond 64 bits is a Python object. *)

Inductive dtype := Dbool | Dint64 | Duint64 | Dfloat64 | Dobject.

Definition is_bool (v : value) : bool :=
  match v with VBool _ => true | _ => false end.

Definition is_int64 (v : value) : bool :=
  match v with VInt z => bool_decide (- 2 ^ 63 ≤ z < 2 ^ 63)%Z | _ => false end.

Definition is_uint64 (v : value) : bool :=
  match v with VInt z => bool_decide (0 ≤ z < 2 ^ 64)%Z | _ => false end.

Definition is_number (v : value) : bool :=
  match v with
  | VNone | VFloat _ => true
  | VInt _ => is_int64 v || is_uint64 v
  | _ => false
  end.

Definition dtype_of (cells : list value) : dtype :=
  if forallb is_bool cells then Dbool
  else if forallb is_int64 cells then Dint64
  else if forallb is_uint64 cells then Duint64
  else if forallb is_number cells then Dfloat64
  else Dobject.

(** [float(z)] as a cell; an int beyond the range of floats is left as it
    is (no int of 64 bits is) *)
Definition to_float64 (v : value) : value :=
  match v with
  | VInt z => match float_of_int z with Some x => VFloat x | None => v end
  | _ => v
  end.

(** [astype]: the cells of an int column that becomes a float column are
    converted; every other change of dtype leaves the values as they are *)
Definition astype (from to : dtype) (v : value) : value :=
  match from, to with
  | (Dint64 | Duint64), Dfloat64 => to_float64 v
  | _, _ => v
  end.

(** ** Concatenation (line 54)

    [pd.concat([a, b], ignore_index=True)]: the columns are the outer union
    of both column indexes, in order of first appearance; every row of [a],
    then every row of [b], is re-indexed on the union, a column the source
    frame lacks being filled with the missing value; each column gets the
    common dtype of its two parts, which turns the ints of an int column
    into floats when the other frame holds floats or unlike ints in that
    column, or has rows and lacks it; the rows are relabelled 0, 1, 2, ... *)

Definition union_columns (a b : list string) : list string :=
  a ++ filter (λ c, c ∉ a) b.

Definition reindex (cols new_cols : list string) (r : list value) : list value :=
  map (cell_at cols r) new_cols.

Definition reindex_rows (src : DataFrame) (new_cols : list string)
  : list (list value) :=
  map (λ r, reindex (columns src) new_cols r.2) (rows src).

(** the cells of column [c], row by row *)
Definition column_cells (df : DataFrame) (c : string) : list value :=
  map (λ r, cell_at (columns df) r.2 c) (rows df).

(** how a frame was made: read from a CSV file, or built from records. A
    column with nothing but missing values is a column of floats (NaN) in
    the first and a column of objects (None) in the second. *)
Inductive origin := FromCsv | FromRecords.

Definition is_missing (v : value) : bool :=
  match v with VNone => true | _ => false end.

Definition column_dtype (o : origin) (cells : list value) : dtype :=
  if forallb is_missing cells
  then match o with FromCsv => Dfloat64 | FromRecords => Dobject end
  else dtype_of cells.

(** what a frame brings to column [c] of the concatenation: nothing when it
    has no row, missing values when it has rows and lacks the column, cells
    of some dtype otherwise *)
Inductive part := NoRows | Missing | Cells (d : dtype).

Definition part_of (o : origin) (df : DataFrame) (c : string) : part :=
  if decide (rows df = []) then NoRows
  else if decide (c ∈ columns df) then Cells (column_dtype o (column_cells df c))
  else Missing.

Definition common_dtype (d1 d2 : dtype) : dtype :=
  match d1, d2 with
  | Dbool, Dbool => Dbool
  | Dint64, Dint64 => Dint64
  | Duint64, Duint64 => Duint64
  | Dint64, (Duint64 | Dfloat64) => Dfloat64
  | Duint64, (Dint64 | Dfloat64) => Dfloat64
  | Dfloat64, (Dint64 | Duint64 | Dfloat64) => Dfloat64
  | _, _ => Dobject
  end.

(** the dtype that also holds the missing value *)
Definition with_missing (d : dtype) : dtype :=
  match d with
  | Dint64 | Duint64 | Dfloat64 => Dfloat64
  | Dbool | Dobject => Dobject
  end.

Definition concat_dtype (p1 p2 : part) : dtype :=
  match p1, p2 with
  | Cells d1, Cells d2 => common_dtype d1 d2
  | Cells d, Missing | Missing, Cells d => with_missing d
  | Cells d, NoRows | NoRows, Cells d => d
  | _, _ => Dobject
  end.

(** a cell of [src] under column [c], in the concatenation with [oth] *)
Definition concat_cell (o o' : origin) (src oth : DataFrame) (c : string)
    (v : value) : value :=
  match part_of o src c with
  | Cells d => astype d (concat_dtype (Cells d) (part_of o' oth c)) v
  | _ => v
  end.

Definition concat_rows (o o' : origin) (src oth : DataFrame)
    (new_cols : list string) : list (list value) :=
  map (zip_with (concat_cell o o' src oth) new_cols) (reindex_rows src new_cols).

(** line 54: [a] is the loaded table, read from the CSV file, and [b] the
    fetched table, built from the records of the feed *)
Definition pd_concat (a b : DataFrame) : DataFrame :=
  let cols := union_columns (columns a) (columns b) in
  {| columns := cols;
     rows := imap (λ i r, (i, r))
               (concat_rows FromCsv FromRecords a b cols ++
                concat_rows FromRecords FromCsv b a cols) |}.




(** the cell of the [i]-th row (by position) under column [c] *)
Definition df_cell (df : DataFrame) (i : nat) (c : string) : option value :=
  (λ r, cell_at (columns df) r.2 c) <$> rows df !! i.

(** ** The static loader (lines 15-21) *)

(** one cell of a column of objects under [errors='coerce']: the result is
    a column of floats, so a float stays, an int and a Boolean become the
    float equal to them, text is parsed, and what cannot be parsed becomes
    the missing value. An int beyond the range of floats, which no frame
    that [read_csv] returns holds in a column of objects, is made missing
    like text that is no number. *)
Definition coerce_cell (v : value) : value :=
  match v with
  | VNone => VNone
  | VBool b => VFloat (float_of_bool b)
  | VInt z => match float_of_int z with Some x => VFloat x | None => VNone end
  | VFloat x => VFloat x
  | VStr s => match to_numeric_str s with Some x => VFloat x | None => VNone end
  | VList _ | VDict _ => VNone
  end.

(** [pd.to_numeric(s, errors='coerce')]: a Series that is already of a
    numeric dtype (bool counts as one) is returned as it is; a Series of
    objects is converted cell by cell *)
Definition to_numeric_coerce (s : list value) : list value :=
  match dtype_of s with
  | Dobject => map coerce_cell s
  | Dbool | Dint64 | Duint64 | Dfloat64 => s
  end.

(** [df[c] = s]: replace the column when the label exists, append it
    otherwise; [s] is aligned with the rows, a row it does not cover gets
    the missing value *)
Definition setitem_col (df : DataFrame) (c : string) (s : list value) : DataFrame :=
  match col_pos c (columns df) with
  | Some j =>
      {| columns := columns df;
         rows := imap (λ i r, (r.1, <[j := default VNone (s !! i)]> r.2)) (rows df) |}
  | None =>
      {| columns := columns df ++ [c];
         rows := imap (λ i r, (r.1, r.2 ++ [default VNone (s !! i)])) (rows df) |}
  end.

Definition numeric_columns : list string :=
  ["relative_velocity_kmph"; "miss_distance_km";
   "estimated_diameter_min_km"; "estimated_diameter_max_km"].

(** [df[c] = pd.to_numeric(df[c], errors='coerce')] *)
Definition coerce_column (c : string) (df : DataFrame) : result DataFrame :=
  s ← getitem_col df c;
  Ok (setitem_col df c (to_numeric_coerce s)).

(** the argument is the frame [pd.read_csv('static_asteroids_data.csv')]
    returns; the memoisation of [st.cache_data] does not change the result *)
Definition load_static_data (static_asteroids_data : DataFrame) : result DataFrame :=
  df ← coerce_column "relative_velocity_kmph" static_asteroids_data;
  df ← coerce_column "miss_distance_km" df;
  df ← coerce_column "estimated_diameter_min_km" df;
  df ← coerce_column "estimated_diameter_max_km" df;
  Ok df.

(** ** Python subscripts, iteration and [float] *)

Definition dict_get (k : string) (d : list (string * value)) : option value :=
  (λ p, (p.2).2) <$> list_find (λ p, p.1 = k) d.

(** [l[z]] with Python's negative indexes *)
Definition py_index {A} (l : list A) (z : Z) : option A :=
  if decide (0 ≤ z)%Z then l !! Z.to_nat z
  else if decide (- Z.of_nat (length l) ≤ z)%Z
       then l !! Z.to_nat (Z.of_nat (length l) + z)
       else None.

Definition chars (s : string) : list value :=
  map (λ a, VStr (String a EmptyString)) (String.list_ascii_of_string s).

(** [v[key]] *)
Definition subscript (v key : value) : result value :=
  match v, key with
  | VDict d, VStr k => of_option KeyError (dict_get k d)
  | VDict _, (VNone | VBool _ | VInt _ | VFloat _) => Err KeyError
  | VDict _, (VList _ | VDict _) => Err TypeError
  | VList l, VInt z => of_option IndexError (py_index l z)
  | VList l, VBool b => of_option IndexError (py_index l (if b then 1 else 0))
  | VStr s, VInt z => of_option IndexError (py_index (chars s) z)
  | VStr s, VBool b => of_option IndexError (py_index (chars s) (if b then 1 else 0))
  | _, _ => Err TypeError
  end.

(** [for x in v] *)
Definition py_iter (v : value) : result (list value) :=
  match v with
  | VList l => Ok l
  | VDict d => Ok (map (λ p, VStr p.1) d)
  | VStr s => Ok (chars s)
  | _ => Err TypeError
  end.

(** [float(v)] *)
Definition py_float (v : value) : result F :=
  match v with
  | VStr s => of_option ValueError (float_of_str s)
  | VInt z => of_option OverflowError (float_of_int z)
  | VFloat x => Ok x
  | VBool b => Ok (float_of_bool b)
  | VNone | VList _ | VDict _ => Err TypeError
  end.

(** ** The live fetcher (lines 25-49)

    The argument is [response.json()], the parsed body of the feed request. *)

(** [pd.DataFrame(neos)] for a list of dicts: the columns are the keys in
    order of first appearance, a key a record lacks is a missing value *)
Definition add_key (acc : list string) (k : string) : list string :=
  if decide (k ∈ acc) then acc else acc ++ [k].

Definition record_keys (recs : list (list (string * value))) : list string :=
  foldl add_key [] (concat (map (map fst) recs)).

Definition DataFrame_of_records (recs : list (list (string * value))) : DataFrame :=
  let cols := record_keys recs in
  {| columns := cols;
     rows := imap (λ i rec, (i, map (λ c, default VNone (dict_get c rec)) cols)) recs |}.

(** the body of the inner loop, lines 34-48 *)
Definition flatten_neo (obj : value) : result (list (string * value)) :=
  est_dia ← (subscript obj (VStr "estimated_diameter") ≫=
             λ v, subscript v (VStr "kilometers"));
  rel_vel ← (subscript obj (VStr "close_approach_data") ≫=
             λ v, subscript v (VInt 0) ≫=
             λ v, subscript v (VStr "relative_velocity") ≫=
             λ v, subscript v (VStr "kilometers_per_hour"));
  miss_dist ← (subscript obj (VStr "close_approach_data") ≫=
               λ v, subscript v (VInt 0) ≫=
               λ v, subscript v (VStr "miss_distance") ≫=
               λ v, subscript v (VStr "kilometers"));
  id ← subscript obj (VStr "id");
  name ← subscript obj (VStr "name");
  absolute_magnitude_h ← subscript obj (VStr "absolute_magnitude_h");
  estimated_diameter_min_km ← subscript est_dia (VStr "estimated_diameter_min");
  estimated_diameter_max_km ← subscript est_dia (VStr "estimated_diameter_max");
  is_potentially_hazardous_asteroid ←
    subscript obj (VStr "is_potentially_hazardous_asteroid");
  close_approach_date ← (subscript obj (VStr "close_approach_data") ≫=
                         λ v, subscript v (VInt 0) ≫=
                         λ v, subscript v (VStr "close_approach_date"));
  relative_velocity_kmph ← py_float rel_vel;
  miss_distance_km ← py_float miss_dist;
  orbiting_body ← (subscript obj (VStr "close_approach_data") ≫=
                   λ v, subscript v (VInt 0) ≫=
                   λ v, subscript v (VStr "orbiting_body"));
  Ok [("id", id);
      ("name", name);
      ("absolute_magnitude_h", absolute_magnitude_h);
      ("estimated_diameter_min_km", estimated_diameter_min_km);
      ("estimated_diameter_max_km", estimated_diameter_max_km);
      ("is_potentially_hazardous_asteroid", is_potentially_hazardous_asteroid);
      ("close_approach_date", close_approach_date);
      ("relative_velocity_kmph", VFloat relative_velocity_kmph);
      ("miss_distance_km", VFloat miss_distance_km);
      ("orbiting_body", orbiting_body)].

(** the records appended to [neos] by the two loops, lines 31-48 *)
Definition fetch_neos (api_data : value) : result (list (list (string * value))) :=
  near_earth_objects ← subscript api_data (VStr "near_earth_objects");
  dates ← py_iter near_earth_objects;
  per_date ← mapM (λ date,
      objs ← (subscript api_data (VStr "near_earth_objects") ≫=
              λ v, subscript v date);
      objs ← py_iter objs;
      mapM flatten_neo objs) dates;
  Ok (concat per_date).

Definition fetch_nasa_data (api_data : value) : result DataFrame :=
  DataFrame_of_records <$> fetch_neos api_data.

(** ** The feed as the fetcher expects it

    The record the specification describes for one near-Earth object, read
    off the object with total lookups, and the shape under which the loop
    body raises nothing. *)

Definition get (k : string) (v : value) : option value :=
  match v with VDict d => dict_get k d | _ => None end.

Definition field (k : string) (v : value) : value := default VNone (get k v).

Definition first_approach (obj : value) : option value :=
  match get "close_approach_data" obj with
  | Some (VList (ca :: _)) => Some ca
  | _ => None
  end.

Definition as_float (v : value) : value :=
  match py_float v with Ok x => VFloat x | Err _ => VNone end.

Definition neo_columns : list string :=
  ["id"; "name"; "absolute_magnitude_h"; "estimated_diameter_min_km";
   "estimated_diameter_max_km"; "is_potentially_hazardous_asteroid";
   "close_approach_date"; "relative_velocity_kmph"; "miss_distance_km";
   "orbiting_body"].

(** one flat record per object: six fields of the object itself, four of
    the first entry of its close-approach list *)
Definition flat_record (obj : value) : list (string * value) :=
  let km := field "kilometers" (field "estimated_diameter" obj) in
  let ca := default VNone (first_approach obj) in
  [("id", field "id" obj);
   ("name", field "name" obj);
   ("absolute_magnitude_h", field "absolute_magnitude_h" obj);
   ("estimated_diameter_min_km", field "estimated_diameter_min" km);
   ("estimated_diameter_max_km", field "estimated_diameter_max" km);
   ("is_potentially_hazardous_asteroid",
    field "is_potentially_hazardous_asteroid" obj);
   ("close_approach_date", field "close_approach_date" ca);
   ("relative_velocity_kmph",
    as_float (field "kilometers_per_hour" (field "relative_velocity" ca)));
   ("miss_distance_km",
    as_float (field "kilometers" (field "miss_distance" ca)));
   ("orbiting_body", field "orbiting_body" ca)].

Definition has (k : string) (v : value) : bool :=
  match get k v with Some _ => true | None => false end.

Definition float_ok (v : value) : bool :=
  match py_float v with Ok _ => true | Err _ => false end.

(** the object has its diameter in kilometers *)
Definition has_diameter (obj : value) : bool :=
  has "estimated_diameter" obj &&
  has "kilometers" (field "estimated_diameter" obj).

(** an object as the feed documents it, with a non-empty close-approach
    list whose first entry has a velocity and a distance that [float]
    accepts *)
Definition shaped_neo (obj : value) : bool :=
  has_diameter obj &&
  (let km := field "kilometers" (field "estimated_diameter" obj) in
   has "estimated_diameter_min" km && has "estimated_diameter_max" km) &&
  has "id" obj && has "name" obj && has "absolute_magnitude_h" obj &&
  has "is_potentially_hazardous_asteroid" obj &&
  match first_approach obj with
  | Some ca =>
      has "close_approach_date" ca && has "orbiting_body" ca &&
      has "relative_velocity" ca &&
      has "kilometers_per_hour" (field "relative_velocity" ca) &&
      float_ok (field "kilometers_per_hour" (field "relative_velocity" ca)) &&
      has "miss_distance" ca &&
      has "kilometers" (field "miss_distance" ca) &&
      float_ok (field "kilometers" (field "miss_distance" ca))
  | None => false
  end.

(** an object whose close-approach list is empty *)
Definition empty_approach (obj : value) : bool :=
  has_diameter obj &&
  match get "close_approach_data" obj with
  | Some (VList []) => true
  | _ => false
  end.

(** a response whose [near_earth_objects] maps the date keys of [days] to
    the arrays of objects of [days] *)
Definition feed_of (api_data : value) (days : list (string * list value)) : Prop :=
  get "near_earth_objects" api_data = Some (VDict (map (λ d, (d.1, VList d.2)) days)) ∧
  NoDup days.*1.

(** ** CSV export (line 124)

    [to_csv(index=False)] writes the header and then one line per row through
    Python's [csv.writer] with its defaults: comma, double quote, minimal
    quoting, and [os.linesep] as the line terminator. Minimal quoting quotes
    a field that holds the delimiter, the quote character or a character of
    the line terminator. The special characters are ASCII, which no byte of
    a longer UTF-8 sequence is, so writing and reading byte by byte is
    writing and reading character by character. *)

Definition dquote : ascii := "034"%char.
Definition comma : ascii := ","%char.
Definition LF : ascii := "010"%char.
Definition CR : ascii := "013"%char.
Definition SPACE : ascii := " "%char.
Definition TAB : ascii := "009"%char.

(** the platform the script runs on, for [os.linesep] *)
Inductive platform := Posix | Windows.

Definition linesep (os : platform) : list ascii :=
  match os with Posix => [LF] | Windows => [CR; LF] end.

Definition special (os : platform) (c : ascii) : bool :=
  bool_decide (c ∈ comma :: dquote :: linesep os).

Definition escape_quotes (f : list ascii) : list ascii :=
  flat_map (λ c, if decide (c = dquote) then [dquote; dquote] else [c]) f.

Definition write_field (os : platform) (f : list ascii) : list ascii :=
  if existsb (special os) f then dquote :: escape_quotes f ++ [dquote] else f.

Fixpoint join_fields (fs : list (list ascii)) : list ascii :=
  match fs with
  | [] => []
  | [f] => f
  | f :: fs => f ++ comma :: join_fields fs
  end.

(** a record that would come out as an empty line, a single empty field, is
    written as a quoted empty field *)
Definition write_row (os : platform) (fields : list string) : list ascii :=
  let body :=
    join_fields (map (λ f, write_field os (String.list_ascii_of_string f)) fields) in
  (if decide (fields ≠ [] ∧ body = []) then [dquote; dquote] else body) ++ linesep os.



(** ** Text and its encoding

    Text is held as the bytes of its UTF-8 encoding. A Python [str] can
    also hold a lone surrogate ([json.loads] accepts the escape for one),
    which UTF-8 does not encode; it is held as the three bytes the encoding
    scheme gives a code point of that range: 0xED, a byte from 0xA0 to 0xBF
    and a continuation byte. No other code point has 0xED followed by such
    a byte. *)
Fixpoint has_surrogate (bs : list ascii) : bool :=
  match bs with
  | b1 :: (b2 :: _) as rest =>
      (bool_decide (nat_of_ascii b1 = 237) &&
       bool_decide (160 ≤ nat_of_ascii b2 ≤ 191)%nat) || has_surrogate rest
  | _ => false
  end.

(** [s.encode('utf-8')]: the bytes of the text, UnicodeEncodeError when it
    holds a surrogate *)
Definition encode_utf8 (s : string) : result (list ascii) :=
  let bs := String.list_ascii_of_string s in
  if has_surrogate bs then Err UnicodeEncodeError else Ok bs.

Section CsvExport.
Variable os : platform.
(** [str(v)] of a list or dict held in a cell *)
Variable container_str : value → string.

Definition csv_cell (v : value) : string :=
  match v with
  | VNone => ""
  | VBool b => if b then "True" else "False"
  | VInt z => pretty z
  | VFloat x => float_repr x
  | VStr s => s
  | VList _ | VDict _ => container_str v
  end.

Definition to_csv (df : DataFrame) : string :=
  String.string_of_list_ascii
    (write_row os (columns df) ++
     concat (map (λ r, write_row os (map csv_cell r.2)) (rows df))).


End CsvExport.

(** ** Reading a CSV back

    The tokenizer of [pd.read_csv] with its defaults, a state machine over
    the bytes of the file: comma, double quote with doubling, lines ended by
    LF, CR or CR LF, blank and whitespace-only lines skipped. *)

Inductive parser_state :=
  | START_RECORD | START_FIELD | IN_FIELD | IN_QUOTED_FIELD
  | QUOTE_IN_QUOTED_FIELD | EAT_CRNL | EAT_CRNL_NOP | WHITESPACE_LINE.

Record parser := mkParser {
  state : parser_state;
  (** the field being read, last byte first *)
  word : list ascii;
  (** the fields of the line being read, last field first *)
  words : list string;
  (** the lines read, last line first *)
  lines : list (list string);
}.

Definition init_parser : parser :=
  {| state := START_RECORD; word := []; words := []; lines := [] |}.

Definition set_state (st : parser_state) (p : parser) : parser :=
  {| state := st; word := word p; words := words p; lines := lines p |}.

Definition push_char (c : ascii) (st : parser_state) (p : parser) : parser :=
  {| state := st; word := c :: word p; words := words p; lines := lines p |}.

Definition end_field (st : parser_state) (p : parser) : parser :=
  {| state := st; word := [];
     words := String.string_of_list_ascii (rev (word p)) :: words p;
     lines := lines p |}.

(** a line is closed: from the second data line on, more fields than the
    line before is an error; a shorter line is padded with empty fields *)
Definition end_line (p : parser) : result parser :=
  let fields := rev (words p) in
  let closed fs := {| state := START_RECORD; word := []; words := [];
                      lines := fs :: lines p |} in
  match lines p with
  | [] => Ok (closed fields)
  | prev :: before =>
      if decide (before ≠ [] ∧ length prev < length fields) then Err ParserError
      else Ok (closed (fields ++ replicate (length prev - length fields) ""))
  end.

Definition start_field (c : ascii) (p : parser) : result parser :=
  if decide (c = LF) then end_line (end_field START_RECORD p)
  else if decide (c = CR) then Ok (end_field EAT_CRNL p)
  else if decide (c = dquote) then Ok (set_state IN_QUOTED_FIELD p)
  else if decide (c = comma) then Ok (end_field START_FIELD p)
  else Ok (push_char c IN_FIELD p).

Definition in_field (c : ascii) (p : parser) : result parser :=
  if decide (c = LF) then end_line (end_field START_RECORD p)
  else if decide (c = CR) then Ok (end_field EAT_CRNL p)
  else if decide (c = comma) then Ok (end_field START_FIELD p)
  else Ok (push_char c IN_FIELD p).

Definition start_record (c : ascii) (p : parser) : result parser :=
  if decide (c = LF) then Ok p
  else if decide (c = CR) then Ok (set_state EAT_CRNL_NOP p)
  else if decide (c = SPACE ∨ c = TAB) then Ok (push_char c WHITESPACE_LINE p)
  else start_field c p.

Definition step (c : ascii) (p : parser) : result parser :=
  match state p with
  | START_RECORD => start_record c p
  | START_FIELD => start_field c p
  | IN_FIELD => in_field c p
  | IN_QUOTED_FIELD =>
      if decide (c = dquote) then Ok (set_state QUOTE_IN_QUOTED_FIELD p)
      else Ok (push_char c IN_QUOTED_FIELD p)
  | QUOTE_IN_QUOTED_FIELD =>
      if decide (c = dquote) then Ok (push_char c IN_QUOTED_FIELD p)
      else in_field c p
  | EAT_CRNL =>
      if decide (c = LF) then end_line p
      else p ← end_line p; start_record c p
  | EAT_CRNL_NOP =>
      if decide (c = LF ∨ c = comma) then Ok (set_state START_RECORD p)
      else start_record c (set_state START_RECORD p)
  | WHITESPACE_LINE =>
      if decide (c = LF) then
        Ok {| state := START_RECORD; word := []; words := words p; lines := lines p |}
      else if decide (c = CR) then
        Ok {| state := EAT_CRNL_NOP; word := []; words := words p; lines := lines p |}
      else if decide (c = SPACE ∨ c = TAB) then Ok (push_char c WHITESPACE_LINE p)
      else in_field c p
  end.

Fixpoint run (bs : list ascii) (p : parser) : result parser :=
  match bs with
  | [] => Ok p
  | c :: bs => p ← step c p; run bs p
  end.

(** the end of the file closes the last line; inside a quoted field it is an
    error *)
Definition finish (p : parser) : result (list (list string)) :=
  match state p with
  | START_RECORD | WHITESPACE_LINE | EAT_CRNL_NOP => Ok (rev (lines p))
  | IN_QUOTED_FIELD => Err ParserError
  | START_FIELD | IN_FIELD | QUOTE_IN_QUOTED_FIELD =>
      (λ p, rev (lines p)) <$> end_line (end_field START_RECORD p)
  | EAT_CRNL => (λ p, rev (lines p)) <$> end_line p
  end.




Definition tokenize (bs : list ascii) : result (list (list string)) :=
  run bs init_parser ≫= finish.

(** an empty header field is given the label [Unnamed: i] *)
Definition header_label (i : nat) (name : string) : string :=
  if decide (name = "") then "Unnamed: " +:+ pretty i else name.

(** the column labels and the records of a CSV file; the first line is the
    header. What read_csv does next (typing the columns, renaming repeated
    labels) is not part of this model. *)
Definition read_csv_records (bs : list ascii)
  : result (list string * list (list string)) :=
  ls ← tokenize bs;
  match ls with
  | [] => Err EmptyDataError
  | header :: records => Ok (imap header_label header, records)
  end.

(** ** Counting carriage returns

    The measure by which the reader is shown never to return a carriage
    return that it met outside quotes. *)










(** ** The script (lines 52-62, 82, 124)

    The frames are objects in a store; the top-level names hold references
    to them. Building a frame allocates a new object; no statement of the
    script writes to an existing one. *)

Record session := mkSession {
  heap : list DataFrame;
  static_df : nat;
  dynamic_df : nat;
  combined_df : nat;
}.

Definition deref (σ : session) (r : nat) : result DataFrame :=
  of_option KeyError (heap σ !! r).

(** lines 52-54 *)
Definition load_and_combine (static_asteroids_data : DataFrame) (api_data : value)
  : result session :=
  s ← load_static_data static_asteroids_data;
  d ← fetch_nasa_data api_data;
  Ok {| heap := [s; d; pd_concat s d];
        static_df := 0; dynamic_df := 1; combined_df := 2 |}.

(** [combined_df = e]: the value of [e] is a new object and the name is
    bound to it *)
Definition rebind_combined (σ : session) (df : DataFrame) : session :=
  {| heap := heap σ ++ [df];
     static_df := static_df σ; dynamic_df := dynamic_df σ;
     combined_df := length (heap σ) |}.

(** lines 58-62 *)
Definition apply_filter (hazard_filter : string) (σ : session) : result session :=
  if decide (hazard_filter = "Yes") then
    c ← deref σ (combined_df σ); rebind_combined σ <$> filter_eq true c
  else if decide (hazard_filter = "No") then
    c ← deref σ (combined_df σ); rebind_combined σ <$> filter_eq false c
  else Ok σ.

(** the names refer to objects of the store *)
Definition wf_session (σ : session) : Prop :=
  static_df σ < length (heap σ) ∧ dynamic_df σ < length (heap σ) ∧
  combined_df σ < length (heap σ).

Section Render.
Variable os : platform.
Variable container_str : value → string.

(** what one render hands over: the table shown and the bytes behind the
    download button *)
Record page := mkPage {
  final : session;
  shown : DataFrame;
  csv : list ascii;
}.

(** the plotting calls read columns of the filtered table and raise when one
    is absent: ValueError from plotly express, KeyError from line 82; the
    drawing itself is not modelled *)
Definition px_columns (df : DataFrame) (cols : list string) : result () :=
  if decide (Forall (λ c, c ∈ columns df) cols) then Ok () else Err ValueError.

Definition render (static_asteroids_data : DataFrame) (api_data : value)
    (hazard_filter : string) : result page :=
  σ ← load_and_combine static_asteroids_data api_data;
  σ ← apply_filter hazard_filter σ;
  df ← deref σ (combined_df σ);
  _ ← px_columns df ["estimated_diameter_max_km"; "relative_velocity_kmph";
                     hazard_column];
  _ ← getitem_col df "orbiting_body";
  _ ← px_columns df ["estimated_diameter_max_km"; hazard_column];
  _ ← px_columns df ["miss_distance_km"; "relative_velocity_kmph"; hazard_column];
  bytes ← encode_utf8 (to_csv os container_str df);
  Ok {| final := σ; shown := df; csv := bytes |}.

End Render.

(** ** Notions used to state further properties *)

(** text or a container, as opposed to a number, a Boolean or the missing
    value *)
Definition is_text (v : value) : bool :=
  match v with VStr _ | VList _ | VDict _ => true | _ => false end.

(** [pd.DataFrame([])]: the frame without columns or rows *)
Definition empty_table : DataFrame := {| columns := []; rows := [] |}.

(** the same frame with its rows labelled 0, 1, 2, ... *)
Definition relabel (df : DataFrame) : DataFrame :=
  {| columns := columns df; rows := imap (λ i r, (i, r.2)) (rows df) |}.

Definition is_dict (v : value) : bool :=
  match v with VDict _ => true | _ => false end.

(** the object with another close-approach list *)
Definition set_approaches (l : list value) (obj : value) : value :=
  match obj with
  | VDict d =>
      VDict (map (λ p, if decide (p.1 = "close_approach_data")
                       then (p.1, VList l) else p) d)
  | _ => obj
  end.

End Pipeline.

Arguments DataFrame : clear implicits.
Arguments session : clear implicits.
Arguments page : clear implicits.

(** ** A small instance to run the pipeline on

    Numbers with three decimal places, held in thousandths. Only used to
    evaluate the definitions on concrete inputs. *)

Module Demo.

Definition digit (c : ascii) : option Z :=
  let n := nat_of_ascii c in
  if decide (48 ≤ n ≤ 57)%nat then Some (Z.of_nat (n - 48)) else None.

Fixpoint read_digits (s : list ascii) (acc : Z) : option Z :=
  match s with
  | [] => Some acc
  | c :: s => d ← digit c; read_digits s (10 * acc + d)%Z
  end.

Fixpoint split_dot (s : list ascii) : list ascii * option (list ascii) :=
  match s with
  | [] => ([], None)
  | c :: s =>
      if decide (c = "."%char) then ([], Some s)
      else let '(i, f) := split_dot s in (c :: i, f)
  end.

(** blanks around a numeral are skipped *)
Definition is_blank (c : ascii) : bool :=
  bool_decide (nat_of_ascii c = 32 ∨ 9 ≤ nat_of_ascii c ≤ 13)%nat.

Fixpoint strip_left (s : list ascii) : list ascii :=
  match s with
  | c :: s' => if is_blank c then strip_left s' else s
  | [] => []
  end.

Definition strip (s : list ascii) : list ascii :=
  rev (strip_left (rev (strip_left s))).

Definition read_sign (s : list ascii) : Z * list ascii :=
  match s with
  | c :: s' =>
      if decide (c = "-"%char) then ((-1)%Z, s')
      else if decide (c = "+"%char) then (1%Z, s')
      else (1%Z, s)
  | [] => (1%Z, s)
  end.

Fixpoint split_exp (s : list ascii) : list ascii * option (list ascii) :=
  match s with
  | [] => ([], None)
  | c :: s =>
      if decide (c = "e"%char ∨ c = "E"%char) then ([], Some s)
      else let '(m, e) := split_exp s in (c :: m, e)
  end.

Definition read_exponent (e : option (list ascii)) : option Z :=
  match e with
  | None => Some 0%Z
  | Some es =>
      let '(sg, ds) := read_sign es in
      if decide (ds = []) then None else (λ n, sg * n)%Z <$> read_digits ds 0
  end.

(** a decimal numeral, with sign, fraction and exponent, cut to thousandths;
    the words [inf] and [nan] and digits grouped by underscores, which
    Python also reads, are not *)
Definition parse_fixed (s : string) : option Z :=
  let '(sg, body) := read_sign (strip (String.list_ascii_of_string s)) in
  let '(mant, ex) := split_exp body in
  let '(i, f) := split_dot mant in
  let f := default [] f in
  if decide (i = [] ∧ f = []) then None
  else
    m ← read_digits (i ++ f) 0;
    e ← read_exponent ex;
    let p := (e - Z.of_nat (length f) + 3)%Z in
    Some (sg * (if decide (0 ≤ p)%Z then m * 10 ^ p else m `quot` 10 ^ (- p)))%Z.

Definition digit_char (d : Z) : ascii := ascii_of_nat (48 + Z.to_nat d).

(** the shortest decimal that reads back: no exponent below 10^16, at least
    one digit after the point, no trailing zero after it *)
Definition repr_fixed (x : Z) : string :=
  let a := Z.abs x in
  let fr := (a mod 1000)%Z in
  let d1 := digit_char (fr / 100) in
  let d2 := digit_char (fr / 10 mod 10) in
  let d3 := digit_char (fr mod 10) in
  let digits :=
    if decide (fr mod 10 ≠ 0)%Z then [d1; d2; d3]
    else if decide (fr / 10 mod 10 ≠ 0)%Z then [d1; d2]
    else [d1] in
  (if decide (x < 0)%Z then "-" else "") +:+ pretty (a / 1000)%Z +:+ "." +:+
    String.string_of_list_ascii digits.

(** [float(n)] raises OverflowError from 2^1024 on *)
#[global] Instance fixed_ops : FloatOps Z := {|
  float_of_bool b := if b then 1000%Z else 0%Z;
  float_of_int z := if decide (Z.abs z < 2 ^ 1024)%Z then Some (1000 * z)%Z else None;
  float_of_str := parse_fixed;
  to_numeric_str := parse_fixed;
  float_repr := repr_fixed;
|}.

Definition no_containers (v : value Z) : string := "".

(** the two-row static file of the end-to-end scenario, as read_csv returns
    it: the first row hazardous, with diameters 0.5 and 0.6 km, velocity
    20000 km/h and the distance text [N/A], which read_csv has already read
    as missing; the minimum diameter of the second row is the text
    [unknown], so that column has stayed text *)
Definition static_columns : list string :=
  ["id"; "name"; "estimated_diameter_min_km"; "estimated_diameter_max_km";
   "is_potentially_hazardous_asteroid"; "close_approach_date";
   "relative_velocity_kmph"; "miss_distance_km"; "orbiting_body"].

Definition static_file : DataFrame Z :=
  {| columns := static_columns;
     rows := [(0%nat, [VInt 2000433; VStr "433 Eros"; VStr "0.5"; VFloat 600%Z;
                       VBool true; VStr "2020-01-01"; VFloat 20000000%Z;
                       VNone; VStr "Earth"]);
              (1%nat, [VInt 2000719; VStr "719 Albert"; VStr "unknown";
                       VFloat 4500%Z; VBool false; VStr "2020-01-02";
                       VFloat 30000000%Z; VFloat 7500000000%Z; VStr "Earth"])] |}.

Definition approach (date vel dist body : string) : value Z :=
  VDict [("close_approach_date", VStr date);
         ("relative_velocity", VDict [("kilometers_per_second", VStr "1");
                                      ("kilometers_per_hour", VStr vel)]);
         ("miss_distance", VDict [("lunar", VStr "1");
                                  ("kilometers", VStr dist)]);
         ("orbiting_body", VStr body)].

Definition neo (id name : string) (hazardous : bool) (approaches : list (value Z))
  : value Z :=
  VDict [("links", VDict []);
         ("id", VStr id);
         ("name", VStr name);
         ("absolute_magnitude_h", VFloat 21500%Z);
         ("estimated_diameter",
          VDict [("kilometers", VDict [("estimated_diameter_min", VFloat 100%Z);
                                       ("estimated_diameter_max", VFloat 300%Z)]);
                 ("meters", VDict [])]);
         ("is_potentially_hazardous_asteroid", VBool hazardous);
         ("close_approach_data", VList approaches)].

Definition feed (objs : list (value Z)) : value Z :=
  VDict [("element_count", VInt (Z.of_nat (length objs)));
         ("near_earth_objects", VDict [("2026-11-03", VList objs)])].

(** one object, non-hazardous, with two close approaches *)
Definition one_day : list (string * list (value Z)) :=
  [("2026-11-03",
    [neo "54321" "(2024 AB)" false
       [approach "2026-11-03" "45000.5" "1200000" "Earth";
        approach "2030-01-01" "1" "2" "Mars"]])].

Definition live_one : value Z := feed (concat one_day.*2).

(** the same feed followed by an object without close approaches *)
Definition day_with_empty_approach : list (string * list (value Z)) :=
  [("2026-11-03",
    [neo "54321" "(2024 AB)" false
       [approach "2026-11-03" "45000.5" "1200000" "Earth"];
     neo "99999" "(2025 XY)" true []])].

Definition live_empty_approach : value Z :=
  feed (concat day_with_empty_approach.*2).

Definition empty_frame : DataFrame Z := {| columns := []; rows := [] |}.

Definition loaded : DataFrame Z :=
  Eval vm_compute in
    match load_static_data static_file with Ok df => df | Err _ => empty_frame end.

Definition fetched : DataFrame Z :=
  Eval vm_compute in
    match fetch_nasa_data live_one with Ok df => df | Err _ => empty_frame end.

Definition combined : DataFrame Z := Eval vm_compute in pd_concat loaded fetched.

Definition session0 : session Z :=
  {| heap := [loaded; fetched; combined];
     static_df := 0; dynamic_df := 1; combined_df := 2 |}.

(** the page of the end-to-end scenario on a POSIX host *)
Definition page_yes : page Z :=
  Eval vm_compute in
    match render Posix no_containers static_file live_one "Yes" with
    | Ok pg => pg
    | Err _ => {| final := session0; shown := empty_frame; csv := [] |}
    end.



(** a table in which the second row has no hazard flag *)
Definition flags_table : DataFrame Z :=
  {| columns := ["id"; "is_potentially_hazardous_asteroid"];
     rows := [(0%nat, [VStr "a"; VBool true]);
              (1%nat, [VStr "b"; VNone]);
              (2%nat, [VStr "c"; VBool false])] |}.




(** a feed whose only object has a lone surrogate, U+D800, in its name *)
Definition lone_surrogate : string :=
  String (ascii_of_nat 237) (String (ascii_of_nat 160) (String (ascii_of_nat 128) "")).

Definition live_lone_surrogate : value Z :=
  feed [neo "54321" ("(2024 " +:+ lone_surrogate +:+ ")") false
          [approach "2026-11-03" "45000.5" "1200000" "Earth"]].

(** a table with a column of ints that the table of flags lacks *)
Definition counts : DataFrame Z :=
  {| columns := ["id"; "sightings"];
     rows := [(7%nat, [VStr "a"; VInt 9007199254740993])] |}.

(** the body the service answers with when the request is refused *)
Definition error_body : value Z :=
  VDict [("error", VDict [("code", VStr "API_KEY_MISSING")])].

(** a day on which the feed lists no object *)
Definition quiet_day : list (string * list (value Z)) := [("2026-11-03", [])].

Definition live_quiet : value Z := feed (concat quiet_day.*2).

(** the object of [one_day] listed under another date, in a response that
    has nothing but the objects *)
Definition other_day : list (string * list (value Z)) :=
  [("2026-11-04", concat one_day.*2)].

Definition live_other_day : value Z :=
  VDict [("near_earth_objects", VDict [("2026-11-04", VList (concat one_day.*2))])].

(** what No keeps of [flags_table]: its third row, under its label 2 *)
Definition flags_no : DataFrame Z :=
  Eval vm_compute in
    match hazard_filter "No" flags_table with Ok df => df | Err _ => empty_frame end.

End Demo.

(** * Properties *)

Section Facts.
Context {F : Type} `{!FloatOps F}.

Implicit Types (df : DataFrame F) (r : nat * list (value F)) (v : value F).

(** ** Column lookup *)

Lemma col_pos_Some c cols j :
  col_pos c cols = Some j ↔ cols !! j = Some c ∧ ∀ i, (i < j)%nat → cols !! i ≠ Some c.
Proof.
  unfold col_pos. rewrite fmap_Some. split.
  - intros [[i x] [Hf ->]]. apply list_find_Some in Hf as (Hl & Hx & Hmin).
    simpl. subst x. split; [done|]. intros i' Hi' Hc. by eapply Hmin.
  - intros [Hl Hmin]. exists (j, c). split; [|done].
    apply list_find_Some. split_and!; [done..|].
    intros i y Hy Hi ->. by apply (Hmin i).
Qed.

Lemma col_pos_None c cols : col_pos c cols = None ↔ c ∉ cols.
Proof.
  unfold col_pos. rewrite fmap_None, list_find_None, Forall_forall.
  split; [intros H Hc; by apply (H c)|intros H x Hx Hxc; by subst].
Qed.

Lemma col_pos_elem_of c cols : c ∈ cols → ∃ j, col_pos c cols = Some j.
Proof.
  intros Hc. destruct (col_pos c cols) as [j|] eqn:E; [eauto|].
  by apply col_pos_None in E.
Qed.

Lemma col_pos_NoDup (cols : list string) j c :
  NoDup cols → cols !! j = Some c → col_pos c cols = Some j.
Proof.
  intros Hnd Hj. apply col_pos_Some. split; [done|]. intros i Hi Hc.
  assert (i = j) by (by eapply NoDup_lookup). lia.
Qed.

(** ** Boolean indexing is a row filter *)

Lemma select_fmap {A} (f : A → bool) (l : list A) :
  select (map f l) l = filter (λ x, f x = true) l.
Proof.
  induction l as [|x l IH]; simpl; [done|].
  rewrite filter_cons. destruct (f x) eqn:E.
  - rewrite decide_True by done. by rewrite IH.
  - rewrite decide_False by congruence. done.
Qed.

Lemma filter_eq_spec b df :
  hazard_column ∈ columns df →
  filter_eq b df =
    Ok {| columns := columns df; rows := filter (flag_is b df) (rows df) |}.
Proof.
  intros [j Hj]%col_pos_elem_of. unfold filter_eq, getitem_col. rewrite Hj. simpl.
  unfold getitem_mask, series_eq_bool.
  rewrite decide_True by (by rewrite !length_map).
  do 2 f_equal. rewrite map_map.
  rewrite (select_fmap (λ r, py_eq_bool (default VNone (r.2 !! j)) b)).
  apply list_filter_iff. intros r.
  unfold flag_is, hazard_flag, cell_at. by rewrite Hj.
Qed.

Lemma filter_eq_absent b df :
  hazard_column ∉ columns df → filter_eq b df = Err KeyError.
Proof.
  intros Hc%col_pos_None. unfold filter_eq, getitem_col. by rewrite Hc.
Qed.

Lemma flag_is_bool b c df r :
  hazard_flag df r = VBool c → flag_is b df r ↔ c = b.
Proof.
  intros E. unfold flag_is. rewrite E. simpl. by rewrite bool_decide_eq_true.
Qed.

Lemma flag_is_missing b df r : hazard_flag df r = VNone → ¬ flag_is b df r.
Proof. intros E. unfold flag_is. by rewrite E. Qed.

(** C1. The hazard filter is a tri-state selection: "All" returns the
    combined table as it is, "Yes" returns exactly the rows whose hazard flag
    equals True, "No" exactly those whose flag equals False, in their order
    and with nothing else; a Boolean flag qualifies for "Yes" when it is
    true and for "No" when it is false. *)
Theorem hazard_filter_tri_state df :
  hazard_column ∈ columns df →
  hazard_filter "All" df = Ok df ∧
  hazard_filter "Yes" df =
    Ok {| columns := columns df; rows := filter (flag_is true df) (rows df) |} ∧
  hazard_filter "No" df =
    Ok {| columns := columns df; rows := filter (flag_is false df) (rows df) |} ∧
  (∀ r c, hazard_flag df r = VBool c →
     (flag_is true df r ↔ c = true) ∧ (flag_is false df r ↔ c = false)).
Proof.
  intros Hc. split_and!.
  - done.
  - unfold hazard_filter. simpl. by apply filter_eq_spec.
  - unfold hazard_filter. simpl. by apply filter_eq_spec.
  - intros r c E. split; by apply flag_is_bool.
Qed.

(** C4. Filtering is idempotent, with "All" as the identity: the "Yes"
    filter applied to its own result returns that result, likewise "No", and
    "All" returns the combined table unchanged. *)
Theorem hazard_filter_idempotent df :
  hazard_column ∈ columns df →
  (∃ yes, hazard_filter "Yes" df = Ok yes ∧ hazard_filter "Yes" yes = Ok yes) ∧
  (∃ no, hazard_filter "No" df = Ok no ∧ hazard_filter "No" no = Ok no) ∧
  hazard_filter "All" df = Ok df.
Proof.
  intros Hc.
  assert (∀ b, ∃ out, filter_eq b df = Ok out ∧ filter_eq b out = Ok out) as Hb.
  { intros b. eexists. split; [by apply filter_eq_spec|].
    rewrite filter_eq_spec by done. simpl. do 2 f_equal.
    rewrite list_filter_filter. apply list_filter_iff. intros r.
    unfold flag_is, hazard_flag. simpl. tauto. }
  split_and!; [apply (Hb true)|apply (Hb false)|done].
Qed.

(** C10. A row whose hazard flag is missing is in the output of the
    filter exactly when "All" is selected: "Yes" and "No" both drop it. *)
Theorem missing_flag_only_under_all df r selection :
  hazard_column ∈ columns df →
  selection ∈ options →
  r ∈ rows df →
  hazard_flag df r = VNone →
  ∃ out, hazard_filter selection df = Ok out ∧
         (r ∈ rows out ↔ selection = "All").
Proof.
  intros Hc Hsel Hr Hna. unfold options in Hsel.
  apply elem_of_cons in Hsel as [->|Hsel]; [|apply elem_of_cons in Hsel as [->|Hsel]].
  - exists df. done.
  - eexists. split; [unfold hazard_filter; simpl; by apply filter_eq_spec|].
    simpl. rewrite list_elem_of_filter. split; [|done].
    intros [Hf _]. by apply flag_is_missing in Hf.
  - apply list_elem_of_singleton in Hsel as ->.
    eexists. split; [unfold hazard_filter; simpl; by apply filter_eq_spec|].
    simpl. rewrite list_elem_of_filter. split; [|done].
    intros [Hf _]. by apply flag_is_missing in Hf.
Qed.

(** ** The filter statement in the script *)

Lemma deref_rebind (σ : session F) df (o : nat) :
  (o < length (heap σ))%nat → deref (rebind_combined σ df) o = deref σ o.
Proof. intros Hr. unfold deref, rebind_combined. simpl. by rewrite lookup_app_l. Qed.

Lemma deref_rebind_combined (σ : session F) df :
  deref (rebind_combined σ df) (combined_df (rebind_combined σ df)) = Ok df.
Proof.
  unfold deref, rebind_combined. simpl.
  rewrite lookup_app_r by done. by rewrite Nat.sub_diag.
Qed.

Lemma apply_filter_hazard_filter (σ : session F) selection c :
  deref σ (combined_df σ) = Ok c →
  apply_filter selection σ =
    if decide (selection = "Yes" ∨ selection = "No")
    then rebind_combined σ <$> hazard_filter selection c
    else Ok σ.
Proof.
  intros Hc. unfold apply_filter, hazard_filter. rewrite Hc.
  repeat case_decide; try done; tauto.
Qed.

(** C5. Filtering never adds rows, never alters a retained row and
    leaves the two source tables alone: after the filter statement the
    combined table has the same columns and its rows are rows of the table
    before, in order, each with its label and cells; [static_df] and
    [dynamic_df] still name the same objects, and no object of the store
    has changed. *)
Theorem filter_frame (σ : session F) selection c :
  wf_session σ →
  deref σ (combined_df σ) = Ok c →
  hazard_column ∈ columns c →
  ∃ σ' c', apply_filter selection σ = Ok σ' ∧
    deref σ' (combined_df σ') = Ok c' ∧
    hazard_filter selection c = Ok c' ∧
    columns c' = columns c ∧
    rows c' `sublist_of` rows c ∧
    static_df σ' = static_df σ ∧
    dynamic_df σ' = dynamic_df σ ∧
    deref σ' (static_df σ') = deref σ (static_df σ) ∧
    deref σ' (dynamic_df σ') = deref σ (dynamic_df σ) ∧
    (∀ o : nat, (o < length (heap σ))%nat → heap σ' !! o = heap σ !! o).
Proof.
  intros (Hs & Hd & _) Hc Hcol.
  rewrite (apply_filter_hazard_filter _ _ _ Hc).
  assert (∀ flag : bool, selection = (if flag then "Yes" else "No") →
    hazard_filter selection c = filter_eq (F:=F) flag c) as Hsel.
  { intros [] ->; done. }
  case_decide as Hyn.
  - assert (∃ flag : bool, selection = if flag then "Yes" else "No") as [flag Hflag].
    { destruct Hyn as [->| ->]; [exists true|exists false]; done. }
    rewrite (Hsel _ Hflag), filter_eq_spec by done. simpl.
    eexists _, _. split_and!; try done.
    + apply deref_rebind_combined.
    + apply sublist_filter.
    + by apply deref_rebind.
    + by apply deref_rebind.
    + intros o Ho. simpl. by rewrite lookup_app_l.
  - exists σ, c. split_and!; try done.
    unfold hazard_filter. repeat case_decide; naive_solver.
Qed.

(** ** Concatenation *)

Implicit Types (a b : DataFrame F).


Lemma elem_of_union_columns (xs ys : list string) c :
  c ∈ union_columns xs ys ↔ c ∈ xs ∨ c ∈ ys.
Proof.
  unfold union_columns. rewrite elem_of_app, list_elem_of_filter.
  destruct (decide (c ∈ xs)); tauto.
Qed.



Lemma length_concat_rows o o' (src oth : DataFrame F) cols :
  length (concat_rows o o' src oth cols) = length (rows src).
Proof. unfold concat_rows, reindex_rows. by rewrite !length_map. Qed.

Lemma concat_rows_lookup o o' (src oth : DataFrame F) cols i :
  concat_rows o o' src oth cols !! i =
    (λ r, zip_with (concat_cell o o' src oth) cols (reindex (columns src) cols r.2))
      <$> rows src !! i.
Proof.
  unfold concat_rows, reindex_rows. change (map ?g ?l) with (g <$> l).
  rewrite !list_lookup_fmap. by destruct (rows src !! i).
Qed.



Lemma length_pd_concat a b :
  length (rows (pd_concat a b)) = (length (rows a) + length (rows b))%nat.
Proof.
  unfold pd_concat. simpl.
  by rewrite length_imap, length_app, !length_concat_rows.
Qed.


(** what the change of dtype does to a cell *)
Lemma astype_same d v : astype d d v = v.
Proof. by destruct d. Qed.



Lemma concat_cell_no_rows o o' (src oth : DataFrame F) c v :
  rows oth = [] → concat_cell o o' src oth c v = v.
Proof.
  intros Hoth. unfold concat_cell, part_of at 2. rewrite decide_True by done.
  destruct (part_of o src c) as [| |d]; try done. simpl. apply astype_same.
Qed.










(** ** The static loader *)

Lemma to_numeric_coerce_cases (s : list (value F)) :
  (to_numeric_coerce s = s ∧ dtype_of s ≠ Dobject) ∨
  (to_numeric_coerce s = map coerce_cell s ∧ dtype_of s = Dobject).
Proof. unfold to_numeric_coerce. destruct (dtype_of s); (by left) || (by right). Qed.

Lemma length_to_numeric_coerce (s : list (value F)) :
  length (to_numeric_coerce s) = length s.
Proof.
  destruct (to_numeric_coerce_cases s) as [[-> _]|[-> _]]; [done|].
  by rewrite length_map.
Qed.

(** a column of a numeric dtype holds no text *)
Lemma dtype_of_no_text (s : list (value F)) v :
  v ∈ s → dtype_of s ≠ Dobject → is_text v = false.
Proof.
  intros Hv%list_elem_of_In. unfold dtype_of.
  destruct (forallb is_bool s) eqn:H1; [|destruct (forallb is_int64 s) eqn:H2;
    [|destruct (forallb is_uint64 s) eqn:H3; [|destruct (forallb is_number s) eqn:H4]]];
    [..|done]; intros _;
    match goal with H : forallb _ s = true |- _ =>
      rewrite forallb_forall in H; specialize (H v Hv); by destruct v end.
Qed.

Lemma to_numeric_coerce_text (s : list (value F)) i txt :
  s !! i = Some (VStr txt) →
  to_numeric_coerce s !! i =
    Some (match to_numeric_str txt with Some x => VFloat x | None => VNone end).
Proof.
  intros Hi.
  destruct (to_numeric_coerce_cases s) as [[_ Hd]|[-> _]].
  - apply (dtype_of_no_text _ (VStr txt)) in Hd; [done|].
    by eapply list_elem_of_lookup_2.
  - change (map ?f ?l) with (f <$> l). by rewrite list_lookup_fmap, Hi.
Qed.

Lemma coerce_column_spec c df :
  c ∈ columns df →
  ∃ df', coerce_column c df = Ok df' ∧
    columns df' = columns df ∧
    (rows df').*1 = (rows df).*1 ∧
    (wf_df df → wf_df df') ∧
    (∀ i c', c' ≠ c → df_cell df' i c' = df_cell df i c') ∧
    (∀ i txt, df_cell df i c = Some (VStr txt) → to_numeric_str txt = None →
       df_cell df' i c = Some VNone).
Proof.
  intros Hc. destruct (col_pos_elem_of _ _ Hc) as [j Hj].
  unfold coerce_column, getitem_col. rewrite Hj. simpl.
  eexists. split; [done|]. unfold setitem_col. rewrite Hj. simpl.
  set (s := to_numeric_coerce _).
  split_and!.
  - done.
  - apply list_eq. intros i. rewrite !list_lookup_fmap, list_lookup_imap.
    by destruct (rows df !! i).
  - intros [Hnd Hw]. split; [done|]. simpl.
    apply Forall_forall. intros r Hr.
    apply list_elem_of_lookup in Hr as [i Hi].
    rewrite list_lookup_imap in Hi. apply fmap_Some in Hi as (r0 & Hr0 & ->).
    simpl. rewrite length_insert.
    rewrite Forall_forall in Hw. apply Hw. by eapply list_elem_of_lookup_2.
  - intros i c' Hne. unfold df_cell. simpl. rewrite list_lookup_imap.
    destruct (rows df !! i) as [r|]; [simpl|done]. f_equal.
    unfold cell_at. destruct (col_pos c' (columns df)) as [j'|] eqn:Hj'; [|done].
    rewrite list_lookup_insert_ne; [done|]. intros ->.
    apply col_pos_Some in Hj as [Hj _]. apply col_pos_Some in Hj' as [Hj' _].
    congruence.
  - intros i txt Hcell Hparse. unfold df_cell in *. simpl.
    rewrite list_lookup_imap.
    destruct (rows df !! i) as [r|] eqn:Hr; [simpl in *|done]. f_equal.
    unfold cell_at in *. rewrite Hj in *.
    destruct (r.2 !! j) as [v0|] eqn:Hv0; simplify_eq/=.
    rewrite list_lookup_insert_eq by (by eapply lookup_lt_Some). simpl.
    subst s. erewrite to_numeric_coerce_text.
    2:{ change (map ?f ?l) with (f <$> l). rewrite list_lookup_fmap, Hr. simpl.
        by rewrite Hv0. }
    by rewrite Hparse.
Qed.

(** C3. When the file has the four numeric columns, the loader returns a
    table (no error) with the same columns and exactly the rows of the file,
    in order and under their labels; every cell of a numeric column whose
    text is not a number is the missing value in the loaded table, and the
    cells of the other columns are passed through. *)
Theorem load_static_data_coerces (file : DataFrame F) :
  Forall (λ c, c ∈ columns file) numeric_columns →
  ∃ df, load_static_data file = Ok df ∧
    columns df = columns file ∧
    length (rows df) = length (rows file) ∧
    (rows df).*1 = (rows file).*1 ∧
    (∀ i c txt, c ∈ numeric_columns →
       df_cell file i c = Some (VStr txt) → to_numeric_str txt = None →
       df_cell df i c = Some VNone) ∧
    (∀ i c, c ∉ numeric_columns → df_cell df i c = df_cell file i c).
Proof.
  intros Hcols. unfold numeric_columns in Hcols.
  apply Forall_cons in Hcols as [H1 Hcols]. apply Forall_cons in Hcols as [H2 Hcols].
  apply Forall_cons in Hcols as [H3 Hcols]. apply Forall_cons in Hcols as [H4 _].
  destruct (coerce_column_spec _ _ H1) as (d1 & E1 & C1 & L1 & _ & O1 & N1).
  rewrite <- C1 in H2, H3, H4.
  destruct (coerce_column_spec _ _ H2) as (d2 & E2 & C2 & L2 & _ & O2 & N2).
  rewrite <- C2 in H3, H4.
  destruct (coerce_column_spec _ _ H3) as (d3 & E3 & C3 & L3 & _ & O3 & N3).
  rewrite <- C3 in H4.
  destruct (coerce_column_spec _ _ H4) as (d4 & E4 & C4 & L4 & _ & O4 & N4).
  exists d4. unfold load_static_data. rewrite E1. simpl. rewrite E2. simpl.
  rewrite E3. simpl. rewrite E4. simpl.
  assert ((rows d4).*1 = (rows file).*1) as HL by congruence.
  split_and!; [done|congruence| |done| |].
  - rewrite <- (length_fmap fst (rows d4)), HL. by rewrite length_fmap.
  - intros i c txt Hc Hcell Hparse. unfold numeric_columns in Hc.
    repeat (apply elem_of_cons in Hc as [->|Hc]).
    + rewrite O4, O3, O2 by done. by eapply N1.
    + rewrite O4, O3 by done. eapply N2; [|done]. by rewrite O1.
    + rewrite O4 by done. eapply N3; [|done]. by rewrite O2, O1.
    + eapply N4; [|done]. by rewrite O3, O2, O1.
    + by apply elem_of_nil in Hc.
  - intros i c Hc. unfold numeric_columns in Hc.
    rewrite !not_elem_of_cons in Hc. destruct Hc as (?&?&?&?&_).
    by rewrite O4, O3, O2, O1.
Qed.

(** ** The live fetcher *)

Implicit Types (obj ca : value F).

Lemma subscript_get v k x : get k v = Some x → subscript v (VStr k) = Ok x.
Proof. destruct v; simpl; try done. by intros ->. Qed.

Lemma has_inv k v : has k v = true → ∃ x, get k v = Some x.
Proof. unfold has. destruct (get k v); [eauto|done]. Qed.

Lemma float_ok_inv v : float_ok v = true → ∃ x, py_float v = Ok x.
Proof. unfold float_ok. destruct (py_float v); [eauto|done]. Qed.

Lemma first_approach_inv obj ca :
  first_approach obj = Some ca →
  ∃ rest, get "close_approach_data" obj = Some (VList (ca :: rest)).
Proof.
  unfold first_approach. destruct (get _ obj) as [[| | | | |[|ca' rest]|]|]; try done.
  intros [= ->]. eauto.
Qed.

Lemma subscript_first v (l : list (value F)) : subscript (VList (v :: l)) (VInt 0) = Ok v.
Proof. reflexivity. Qed.

Lemma subscript_first_empty : subscript (VList []) (VInt 0) = Err (A:=value F) IndexError.
Proof. reflexivity. Qed.

Ltac run_subscripts :=
  repeat first
    [ progress cbn [mbind result_bind mret result_ret default from_option id]
    | match goal with
      | E : get ?k ?v = Some _ |- context [subscript ?v (VStr ?k)] =>
          rewrite (subscript_get _ _ _ E)
      | E : get ?k ?v = Some _ |- context [get ?k ?v] => rewrite E
      | E : py_float ?v = Ok _ |- context [py_float ?v] => rewrite E
      | |- context [subscript (VList (_ :: _)) (VInt 0)] => rewrite subscript_first
      | |- context [subscript (VList []) (VInt 0)] => rewrite subscript_first_empty
      end ].

Ltac has_fields :=
  repeat match goal with
  | H : _ && _ = true |- _ => apply andb_true_iff in H as [? ?]
  | H : has ?k ?v = true |- _ =>
      let x := fresh "x" in let E := fresh "E" in
      apply has_inv in H as [x E];
      try (unfold field in *; rewrite E in *; simpl in * )
  | H : float_ok ?v = true |- _ =>
      let x := fresh "x" in let E := fresh "E" in
      apply float_ok_inv in H as [x E]
  end.

Lemma flatten_neo_shaped obj :
  shaped_neo obj = true → flatten_neo obj = Ok (flat_record obj).
Proof.
  unfold shaped_neo, has_diameter. intros H.
  destruct (first_approach obj) as [ca|] eqn:Hca.
  2:{ rewrite !andb_false_r in H. done. }
  destruct (first_approach_inv _ _ Hca) as [rest Hcad].
  has_fields.
  unfold flatten_neo, flat_record, as_float, field. rewrite Hca.
  run_subscripts. done.
Qed.

Lemma flatten_neo_empty_approach obj :
  empty_approach obj = true → flatten_neo obj = Err IndexError.
Proof.
  unfold empty_approach, has_diameter. intros H.
  destruct (get "close_approach_data" obj) as [[| | | | |[|]|]|] eqn:Hcad;
    rewrite ?andb_false_r in H; try done.
  has_fields. unfold flatten_neo. run_subscripts. done.
Qed.

(** [mapM] in the error monad stops at the first element that raises *)
Lemma mapM_Ok {A B} (f : A → result B) (g : A → B) (l : list A) :
  Forall (λ x, f x = Ok (g x)) l → mapM f l = Ok (map g l).
Proof.
  induction 1 as [|x l Hx _ IH]; [done|]. simpl. rewrite Hx. simpl.
  rewrite IH. done.
Qed.

Lemma mapM_Err {A B} (f : A → result B) (e : exn) (l : list A) :
  Forall (λ x, is_Ok (f x) ∨ f x = Err e) l →
  Exists (λ x, f x = Err e) l →
  mapM f l = Err e.
Proof.
  induction 1 as [|x l Hx _ IH]; intros Hex; [by apply Exists_nil in Hex|].
  simpl. destruct Hx as [[y Hy]|Hx]; [|by rewrite Hx].
  rewrite Hy. simpl. apply Exists_cons in Hex as [Hex|Hex]; [congruence|].
  by rewrite IH.
Qed.

Lemma dict_get_NoDup (d : list (string * value F)) k v :
  NoDup d.*1 → (k, v) ∈ d → dict_get k d = Some v.
Proof.
  intros Hnd Hin. unfold dict_get. apply fmap_Some.
  apply list_elem_of_lookup in Hin as [i Hi].
  exists (i, (k, v)). split; [|done].
  apply list_find_Some. split_and!; [done..|].
  intros j [k' v'] Hj Hlt Hk. simpl in Hk. subst k'.
  assert (i = j); [|lia].
  eapply NoDup_lookup; [done| |]; rewrite list_lookup_fmap.
  - by rewrite Hi.
  - by rewrite Hj.
Qed.

Lemma mapM_ext_in {A B} (f g : A → result B) (l : list A) :
  (∀ x, x ∈ l → f x = g x) → mapM f l = mapM g l.
Proof.
  induction l as [|x l IH]; intros Hfg; [done|]. simpl.
  rewrite Hfg by left. rewrite IH; [done|]. intros y Hy. apply Hfg. by right.
Qed.

Lemma mapM_map {A B C} (f : B → result C) (h : A → B) (l : list A) :
  mapM f (map h l) = mapM (λ x, f (h x)) l.
Proof. induction l as [|x l IH]; [done|]. simpl. by rewrite IH. Qed.

Lemma fetch_neos_unfold api_data days :
  feed_of api_data days →
  fetch_neos api_data = @concat _ <$> mapM (λ d, mapM flatten_neo d.2) days.
Proof.
  intros [Hneo Hnd]. unfold fetch_neos.
  rewrite (subscript_get _ _ _ Hneo). simpl.
  rewrite !mapM_map.
  rewrite (mapM_ext_in _ (λ d, mapM flatten_neo d.2)).
  - by destruct (mapM _ days).
  - intros d Hd. simpl.
    rewrite (dict_get_NoDup _ d.1 (VList d.2)); [done| |].
    + rewrite <- list_fmap_compose.
      replace (fst ∘ (λ d0 : string * list (value F), (d0.1, VList d0.2))) with (@fst string (list (value F))); [done|].
      done.
    + apply list_elem_of_fmap. by exists d.
Qed.

Lemma mapM_cons {A B} (f : A → result B) (x : A) (l : list A) :
  mapM f (x :: l) = y ← f x; k ← mapM f l; Ok (y :: k).
Proof. reflexivity. Qed.


Lemma fetch_days_Err (days : list (string * list (value F))) :
  Forall (λ obj, shaped_neo obj = true ∨ empty_approach obj = true) (concat days.*2) →
  Exists (λ obj, empty_approach obj = true) (concat days.*2) →
  mapM (λ d, mapM flatten_neo d.2) days = Err IndexError.
Proof.
  induction days as [|d days IH]; [by intros _ ?%Exists_nil|].
  rewrite fmap_cons, mapM_cons. cbn [concat].
  intros [Hd Hdays]%Forall_app Hex.
  destruct (decide (Exists (λ obj, empty_approach obj = true) d.2)) as [Hhere|Hnot].
  - rewrite (mapM_Err flatten_neo IndexError); [done| |].
    + eapply Forall_impl; [done|]. intros obj [Hs|He].
      * left. eexists. by apply flatten_neo_shaped.
      * right. by apply flatten_neo_empty_approach.
    + eapply Exists_impl; [done|]. intros obj. apply flatten_neo_empty_approach.
  - apply Exists_app in Hex as [Hex|Hex]; [done|].
    rewrite (mapM_Ok flatten_neo flat_record).
    + change (Ok ?a ≫= ?f) with (f a). cbn beta. by rewrite IH.
    + apply Forall_forall. intros obj Hobj.
      rewrite Forall_forall in Hd. destruct (Hd obj Hobj) as [Hs|He].
      * by apply flatten_neo_shaped.
      * destruct Hnot. apply Exists_exists. eauto.
Qed.

(** [pd.DataFrame] on records that all have the ten keys *)
Lemma foldl_add_key_known (acc ks : list string) :
  Forall (λ k, k ∈ acc) ks → foldl add_key acc ks = acc.
Proof.
  induction 1 as [|k ks Hk _ IH]; [done|]. simpl.
  unfold add_key at 2. by rewrite decide_True.
Qed.


Lemma cell_at_map (g : string → value F) cols c :
  c ∈ cols → cell_at cols (map g cols) c = g c.
Proof.
  intros [j Hj]%col_pos_elem_of. unfold cell_at. rewrite Hj.
  apply col_pos_Some in Hj as [Hj _].
  change (map ?f ?l) with (f <$> l). by rewrite list_lookup_fmap, Hj.
Qed.



(** C7. When some object of the feed has an empty close-approach list
    (the objects being otherwise as documented), the fetcher raises the
    out-of-range error and returns no table, and the render, once the static
    table is loaded, ends with that error: no page, no recovery. *)
Theorem empty_approach_aborts (api_data : value F) days :
  feed_of api_data days →
  Forall (λ obj, shaped_neo obj = true ∨ empty_approach obj = true)
         (concat days.*2) →
  Exists (λ obj, empty_approach obj = true) (concat days.*2) →
  fetch_nasa_data api_data = Err IndexError ∧
  ∀ os container_str file selection,
    is_Ok (load_static_data file) →
    render os container_str file api_data selection = Err IndexError.
Proof.
  intros Hfeed Hall Hex.
  assert (fetch_nasa_data api_data = Err IndexError) as Hfetch.
  { unfold fetch_nasa_data. rewrite (fetch_neos_unfold _ _ Hfeed).
    by rewrite fetch_days_Err. }
  split; [done|]. intros os container_str file selection [s Hs].
  unfold render, load_and_combine. rewrite Hs, Hfetch. done.
Qed.

(** ** CSV: the reader inverts the writer *)

Implicit Types (w f : list ascii) (ws : list string) (ls : list (list string)).
Implicit Types (os : platform).







Lemma bind_Ok {A B} (x : A) (k : A → result B) : Ok x ≫= k = k x.
Proof. reflexivity. Qed.






























(** ** The tables of a render are well formed *)

Lemma coerce_column_inv c df df' :
  coerce_column c df = Ok df' → c ∈ columns df.
Proof.
  unfold coerce_column, getitem_col.
  destruct (col_pos c (columns df)) as [j|] eqn:E; [|done]. intros _.
  apply col_pos_Some in E as [E _]. by eapply list_elem_of_lookup_2.
Qed.

Lemma load_static_data_inv file df :
  load_static_data file = Ok df →
  columns df = columns file ∧
  Forall (λ c, c ∈ columns file) numeric_columns ∧
  (wf_df file → wf_df df).
Proof.
  unfold load_static_data. intros H.
  destruct (coerce_column _ file) as [d1|] eqn:E1; [|done]. simpl in H.
  destruct (coerce_column _ d1) as [d2|] eqn:E2; [|done]. simpl in H.
  destruct (coerce_column _ d2) as [d3|] eqn:E3; [|done]. simpl in H.
  destruct (coerce_column _ d3) as [d4|] eqn:E4; [|done]. simpl in H.
  injection H as <-.
  pose proof (coerce_column_inv _ _ _ E1) as H1.
  pose proof (coerce_column_inv _ _ _ E2) as H2.
  pose proof (coerce_column_inv _ _ _ E3) as H3.
  pose proof (coerce_column_inv _ _ _ E4) as H4.
  destruct (coerce_column_spec _ _ H1) as (? & E1' & C1 & _ & W1 & _).
  destruct (coerce_column_spec _ _ H2) as (? & E2' & C2 & _ & W2 & _).
  destruct (coerce_column_spec _ _ H3) as (? & E3' & C3 & _ & W3 & _).
  destruct (coerce_column_spec _ _ H4) as (? & E4' & C4 & _ & W4 & _).
  rewrite E1 in E1'. injection E1' as <-. rewrite E2 in E2'. injection E2' as <-.
  rewrite E3 in E3'. injection E3' as <-. rewrite E4 in E4'. injection E4' as <-.
  split_and!.
  - congruence.
  - unfold numeric_columns. repeat (apply Forall_cons; split); [| | | |done]; congruence.
  - auto.
Qed.

Lemma mapM_Ok_inv {A B} (f : A → result B) (l : list A) (ys : list B) :
  mapM f l = Ok ys → Forall2 (λ x y, f x = Ok y) l ys.
Proof.
  revert ys. induction l as [|x l IH]; intros ys.
  - intros [= <-]. constructor.
  - rewrite mapM_cons. destruct (f x) as [y|] eqn:E; [|done]. rewrite bind_Ok.
    destruct (mapM f l) as [k|]; [|done]. rewrite bind_Ok. intros [= <-].
    constructor; [done|]. by apply IH.
Qed.

Lemma flatten_neo_keys obj (rec : list (string * value F)) :
  flatten_neo obj = Ok rec → rec.*1 = neo_columns.
Proof.
  unfold flatten_neo. intros H.
  repeat match type of H with
  | (?m ≫= _) = Ok _ =>
      let E := fresh "E" in
      destruct m eqn:E; [rewrite bind_Ok in H|done]; clear E
  end.
  by injection H as <-.
Qed.

Lemma fetch_neos_keys api_data (recs : list (list (string * value F))) :
  fetch_neos api_data = Ok recs → Forall (λ rec, rec.*1 = neo_columns) recs.
Proof.
  unfold fetch_neos. intros H.
  destruct (subscript api_data _) as [neo|]; [rewrite bind_Ok in H|done].
  destruct (py_iter neo) as [dates|]; [rewrite bind_Ok in H|done].
  destruct (mapM _ dates) as [per_date|] eqn:E; [rewrite bind_Ok in H|done].
  injection H as <-. apply mapM_Ok_inv in E.
  induction E as [|date recs dates per_date Hd _ IH]; [done|].
  simpl. apply Forall_app. split; [|done]. clear IH.
  rewrite bind_Ok in Hd.
  destruct (subscript neo date) as [objs|]; [rewrite bind_Ok in Hd|done].
  destruct (py_iter objs) as [l|]; [rewrite bind_Ok in Hd|done].
  apply mapM_Ok_inv in Hd. induction Hd as [|obj rec l recs Hobj _ IH]; [done|].
  constructor; [|done]. by eapply flatten_neo_keys.
Qed.

Lemma record_keys_neo (recs : list (list (string * value F))) :
  Forall (λ rec, rec.*1 = neo_columns) recs →
  recs ≠ [] → record_keys recs = neo_columns.
Proof.
  intros Hall Hne. destruct Hall as [|rec recs Hrec Hall]; [done|].
  unfold record_keys. simpl. rewrite foldl_app.
  change (map fst rec) with (rec.*1). rewrite Hrec.
  change (foldl add_key [] neo_columns) with neo_columns. clear Hne.
  apply foldl_add_key_known. induction Hall as [|r recs' Hr _ IH]; [done|].
  simpl. apply Forall_app. split; [|done].
  change (map fst r) with (r.*1). rewrite Hr. by apply Forall_forall.
Qed.

Lemma fetch_nasa_data_inv api_data d :
  fetch_nasa_data api_data = Ok d →
  wf_df d ∧ (columns d = [] ∨ columns d = neo_columns).
Proof.
  unfold fetch_nasa_data. destruct (fetch_neos api_data) as [recs|] eqn:E; [|done].
  simpl. intros [= <-]. apply fetch_neos_keys in E.
  assert (record_keys recs = [] ∨ record_keys recs = neo_columns) as Hcols.
  { destruct recs; [by left|right]. by apply record_keys_neo. }
  split; [|done]. split; simpl.
  - destruct Hcols as [-> | ->]; [constructor|].
    by apply (bool_decide_unpack (NoDup neo_columns)).
  - apply Forall_forall. intros r Hr. apply list_elem_of_lookup in Hr as [i Hi].
    rewrite list_lookup_imap in Hi. apply fmap_Some in Hi as (rec & _ & ->).
    simpl. by rewrite length_map.
Qed.

Lemma hazard_filter_inv selection c c' :
  hazard_filter selection c = Ok c' →
  columns c' = columns c ∧ rows c' `sublist_of` rows c.
Proof.
  assert (∀ flag, filter_eq (F:=F) flag c = Ok c' →
    columns c' = columns c ∧ rows c' `sublist_of` rows c) as Hf.
  { intros flag. destruct (decide (hazard_column ∈ columns c)) as [Hc|Hc].
    - rewrite filter_eq_spec by done. intros [= <-]. split; [done|]. simpl.
      apply sublist_filter.
    - by rewrite filter_eq_absent. }
  unfold hazard_filter. repeat case_decide; eauto. by intros [= <-].
Qed.

Ltac bind_inv H :=
  repeat match type of H with
  | (?m ≫= _) = Ok _ =>
      let E := fresh "E" in
      destruct m eqn:E; [rewrite bind_Ok in H|done]; clear E
  end.

Ltac bind_step H x E :=
  match type of H with
  | (?m ≫= _) = Ok _ => destruct m as [x|] eqn:E; [rewrite bind_Ok in H|done]
  end.

Lemma px_columns_inv df (cols : list string) u :
  px_columns df cols = Ok u → Forall (λ c, c ∈ columns df) cols.
Proof. unfold px_columns. by case_decide. Qed.

Lemma getitem_col_inv df c (s : list (value F)) :
  getitem_col df c = Ok s → c ∈ columns df.
Proof.
  unfold getitem_col. destruct (col_pos c (columns df)) as [j|] eqn:E; [|done].
  intros _. apply col_pos_Some in E as [E _]. by eapply list_elem_of_lookup_2.
Qed.

(** the statements after the filter, lines 67-124 *)
Lemma charts_inv os container_str (σ : session F) df pg :
  (px_columns df ["estimated_diameter_max_km"; "relative_velocity_kmph";
                  hazard_column] ≫= λ _,
   getitem_col df "orbiting_body" ≫= λ _,
   px_columns df ["estimated_diameter_max_km"; hazard_column] ≫= λ _,
   px_columns df ["miss_distance_km"; "relative_velocity_kmph"; hazard_column] ≫= λ _,
   encode_utf8 (to_csv os container_str df) ≫= λ bytes,
   Ok {| final := σ; shown := df; csv := bytes |}) = Ok pg →
  final pg = σ ∧ shown pg = df ∧
  encode_utf8 (to_csv os container_str df) = Ok (csv pg) ∧
  hazard_column ∈ columns df ∧ "orbiting_body" ∈ columns df.
Proof.
  intros H. bind_step H u1 E1. bind_step H u2 E2. bind_step H u3 E3.
  bind_step H u4 E4. bind_step H bytes E5. injection H as <-. simpl.
  split_and!; [done..| |].
  - apply px_columns_inv in E3. by apply Forall_cons in E3 as [_ [? _]%Forall_cons].
  - by eapply getitem_col_inv.
Qed.

Lemma render_inv os container_str file api_data selection pg :
  render os container_str file api_data selection = Ok pg →
  ∃ s d, load_static_data file = Ok s ∧ fetch_nasa_data api_data = Ok d ∧
    hazard_filter selection (pd_concat s d) = Ok (shown pg) ∧
    encode_utf8 (to_csv os container_str (shown pg)) = Ok (csv pg) ∧
    hazard_column ∈ columns (shown pg) ∧ "orbiting_body" ∈ columns (shown pg).
Proof.
  unfold render, load_and_combine. intros H.
  destruct (load_static_data file) as [s|]; [rewrite bind_Ok in H|done].
  destruct (fetch_nasa_data api_data) as [d|]; [rewrite !bind_Ok in H|done].
  exists s, d. split; [done|]. split; [done|].
  rewrite (apply_filter_hazard_filter _ _ (pd_concat s d)) in H by done.
  case_decide as Hyn.
  - destruct (hazard_filter selection (pd_concat s d)) as [c'|]; [|done].
    change (rebind_combined ?σ <$> Ok c') with (Ok (rebind_combined σ c')) in H.
    rewrite bind_Ok, deref_rebind_combined, bind_Ok in H.
    by apply charts_inv in H as (_ & -> & ? & ? & ?).
  - assert (hazard_filter selection (pd_concat s d) = Ok (pd_concat s d)) as ->.
    { unfold hazard_filter. repeat case_decide; try done; tauto. }
    rewrite bind_Ok in H.
    change (deref _ _) with (Ok (pd_concat s d)) in H. rewrite bind_Ok in H.
    by apply charts_inv in H as (_ & -> & ? & ? & ?).
Qed.



(** ** CSV: the reader returns no carriage return met outside quotes *)






































(** * Further properties of the pipeline *)

(** ** The static loader: errors, numbers only, idempotence *)

Lemma coerce_column_absent c df :
  c ∉ columns df → coerce_column c df = Err KeyError.
Proof.
  intros Hc%col_pos_None. unfold coerce_column, getitem_col. by rewrite Hc.
Qed.

(** X1. A file that lacks one of the four numeric columns is rejected with
    KeyError, whatever else it holds. *)
Theorem load_static_data_missing_column (file : DataFrame F) :
  ¬ Forall (λ c, c ∈ columns file) numeric_columns →
  load_static_data file = Err KeyError.
Proof.
  intros Hmiss. unfold load_static_data.
  destruct (decide ("relative_velocity_kmph" ∈ columns file)) as [H1|H1];
    [|by rewrite coerce_column_absent].
  destruct (coerce_column_spec _ _ H1) as (d1 & -> & C1 & _). rewrite bind_Ok.
  destruct (decide ("miss_distance_km" ∈ columns file)) as [H2|H2];
    [|rewrite coerce_column_absent; [done|by rewrite C1]].
  rewrite <- C1 in H2.
  destruct (coerce_column_spec _ _ H2) as (d2 & -> & C2 & _). rewrite bind_Ok.
  destruct (decide ("estimated_diameter_min_km" ∈ columns file)) as [H3|H3];
    [|rewrite coerce_column_absent; [done|by rewrite C2, C1]].
  rewrite <- C1, <- C2 in H3.
  destruct (coerce_column_spec _ _ H3) as (d3 & -> & C3 & _). rewrite bind_Ok.
  destruct (decide ("estimated_diameter_max_km" ∈ columns file)) as [H4|H4];
    [|rewrite coerce_column_absent; [done|by rewrite C3, C2, C1]].
  destruct Hmiss. unfold numeric_columns.
  rewrite C2, C1 in H3. rewrite C1 in H2.
  repeat (apply Forall_cons; split; [done|]). done.
Qed.

Lemma coerce_cell_no_text v : is_text (coerce_cell v) = false.
Proof.
  destruct v; simpl; try done.
  - by destruct (float_of_int z).
  - by destruct (to_numeric_str s).
Qed.

Lemma to_numeric_coerce_no_text (s : list (value F)) i v :
  to_numeric_coerce s !! i = Some v → is_text v = false.
Proof.
  destruct (to_numeric_coerce_cases s) as [[-> Hd]|[-> _]].
  - intros Hi. eapply dtype_of_no_text; [|done]. by eapply list_elem_of_lookup_2.
  - change (map ?f ?l) with (f <$> l). rewrite list_lookup_fmap.
    destruct (s !! i); [|done]. intros [= <-]. apply coerce_cell_no_text.
Qed.

Lemma coerce_column_no_text c df df' i v :
  coerce_column c df = Ok df' →
  df_cell df' i c = Some v → is_text v = false.
Proof.
  unfold coerce_column, getitem_col.
  destruct (col_pos c (columns df)) as [j|] eqn:Hj; [|done]. rewrite bind_Ok.
  intros [= <-]. unfold df_cell, setitem_col. rewrite Hj. simpl.
  rewrite list_lookup_imap. destruct (rows df !! i) as [r|]; [simpl|done].
  unfold cell_at. rewrite Hj. intros [= <-].
  destruct (decide (j < length r.2)%nat) as [Hlt|Hge].
  - rewrite list_lookup_insert_eq by done. simpl.
    destruct (to_numeric_coerce _ !! i) as [x|] eqn:Hx; [|done].
    by eapply to_numeric_coerce_no_text.
  - rewrite list_insert_ge by lia. by rewrite lookup_ge_None_2 by lia.
Qed.

Lemma coerce_column_other c df df' i c' :
  coerce_column c df = Ok df' → c' ≠ c → df_cell df' i c' = df_cell df i c'.
Proof.
  intros E Hne. pose proof (coerce_column_inv _ _ _ E) as Hc.
  destruct (coerce_column_spec _ _ Hc) as (d & E' & _ & _ & _ & O & _).
  rewrite E in E'. injection E' as <-. by apply O.
Qed.

(** X2. After a successful load the four numeric columns hold no text: each
    of their cells is a number, a Boolean or the missing value. *)
Theorem loaded_numeric_columns_hold_no_text (file df : DataFrame F) i c v :
  load_static_data file = Ok df →
  c ∈ numeric_columns →
  df_cell df i c = Some v →
  is_text v = false.
Proof.
  unfold load_static_data. intros H Hc Hv.
  destruct (coerce_column _ file) as [d1|] eqn:E1; [rewrite bind_Ok in H|done].
  destruct (coerce_column _ d1) as [d2|] eqn:E2; [rewrite bind_Ok in H|done].
  destruct (coerce_column _ d2) as [d3|] eqn:E3; [rewrite bind_Ok in H|done].
  destruct (coerce_column _ d3) as [d4|] eqn:E4; [rewrite bind_Ok in H|done].
  injection H as <-. unfold numeric_columns in Hc.
  repeat (apply elem_of_cons in Hc as [->|Hc]).
  - rewrite (coerce_column_other _ _ _ _ _ E4), (coerce_column_other _ _ _ _ _ E3),
      (coerce_column_other _ _ _ _ _ E2) in Hv by done.
    exact (coerce_column_no_text _ _ _ _ _ E1 Hv).
  - rewrite (coerce_column_other _ _ _ _ _ E4), (coerce_column_other _ _ _ _ _ E3)
      in Hv by done.
    exact (coerce_column_no_text _ _ _ _ _ E2 Hv).
  - rewrite (coerce_column_other _ _ _ _ _ E4) in Hv by done.
    exact (coerce_column_no_text _ _ _ _ _ E3 Hv).
  - exact (coerce_column_no_text _ _ _ _ _ E4 Hv).
  - by apply elem_of_nil in Hc.
Qed.

Lemma coerce_cell_number v : is_number (coerce_cell v) = true.
Proof.
  destruct v; simpl; try done.
  - by destruct (float_of_int z).
  - by destruct (to_numeric_str s).
Qed.

Lemma to_numeric_coerce_idem (s : list (value F)) :
  to_numeric_coerce (to_numeric_coerce s) = to_numeric_coerce s.
Proof.
  destruct (to_numeric_coerce_cases s) as [[-> Hd]|[-> _]].
  - by destruct (to_numeric_coerce_cases s) as [[-> _]|[_ ?]].
  - destruct (to_numeric_coerce_cases (map coerce_cell s)) as [[-> _]|[_ Hd]]; [done|].
    exfalso. revert Hd. unfold dtype_of.
    assert (forallb is_number (map coerce_cell s) = true) as ->.
    { apply forallb_forall. intros v (v0 & <- & _)%in_map_iff. apply coerce_cell_number. }
    by repeat destruct (forallb _ _).
Qed.

(** a cell that is missing stays so *)
Lemma to_numeric_coerce_missing (s : list (value F)) i :
  s !! i = Some VNone → to_numeric_coerce s !! i = Some VNone.
Proof.
  intros Hi. destruct (to_numeric_coerce_cases s) as [[-> _]|[-> _]]; [done|].
  change (map ?f ?l) with (f <$> l). by rewrite list_lookup_fmap, Hi.
Qed.

(** the Series of a column that has just been coerced *)
Lemma getitem_col_coerced c df df' s :
  getitem_col df c = Ok s →
  coerce_column c df = Ok df' →
  getitem_col df' c = Ok (to_numeric_coerce s).
Proof.
  unfold coerce_column. intros Hs. rewrite Hs, bind_Ok. intros [= <-].
  unfold getitem_col in *.
  destruct (col_pos c (columns df)) as [j|] eqn:Hj; [|done].
  injection Hs as <-. unfold setitem_col. rewrite Hj. simpl. rewrite Hj. f_equal.
  set (s := map _ (rows df)).
  apply list_eq. intros i. change (map ?f ?l) with (f <$> l).
  rewrite list_lookup_fmap, list_lookup_imap.
  destruct (rows df !! i) as [r|] eqn:Hr.
  - simpl. assert (s !! i = Some (default VNone (r.2 !! j))) as Hsi.
    { subst s. change (map ?f ?l) with (f <$> l). by rewrite list_lookup_fmap, Hr. }
    destruct (r.2 !! j) as [x|] eqn:Hx.
    + rewrite list_lookup_insert_eq by (by eapply lookup_lt_Some). simpl.
      destruct (to_numeric_coerce s !! i) as [y|] eqn:Hy; [done|].
      apply lookup_ge_None in Hy. apply lookup_lt_Some in Hsi.
      rewrite length_to_numeric_coerce in Hy. lia.
    + rewrite list_insert_ge by (by apply lookup_ge_None). rewrite Hx. simpl.
      simpl in Hsi. by rewrite to_numeric_coerce_missing.
  - simpl. symmetry. apply lookup_ge_None. apply lookup_ge_None in Hr.
    rewrite length_to_numeric_coerce. subst s. rewrite length_map. lia.
Qed.

Lemma getitem_col_other c c' df df' :
  coerce_column c df = Ok df' → c' ≠ c →
  getitem_col df' c' = getitem_col df c'.
Proof.
  intros E Hne. pose proof E as E0. unfold coerce_column, getitem_col in E.
  destruct (col_pos c (columns df)) as [j|] eqn:Hj; [|done].
  rewrite bind_Ok in E. injection E as <-.
  unfold getitem_col, setitem_col. rewrite Hj. simpl.
  destruct (col_pos c' (columns df)) as [j'|] eqn:Hj'; [|done]. f_equal.
  apply list_eq. intros i. change (map ?f ?l) with (f <$> l).
  rewrite !list_lookup_fmap, list_lookup_imap.
  destruct (rows df !! i) as [r|]; [simpl|done].
  rewrite list_lookup_insert_ne; [done|]. intros ->.
  apply col_pos_Some in Hj as [Hj _]. apply col_pos_Some in Hj' as [Hj' _].
  congruence.
Qed.

(** writing a column over itself leaves the frame as it is *)
Lemma setitem_col_same c df s :
  getitem_col df c = Ok s → setitem_col df c s = df.
Proof.
  unfold getitem_col, setitem_col.
  destruct (col_pos c (columns df)) as [j|] eqn:Hj; [|done]. intros [= <-].
  destruct df as [cols rws]. simpl. f_equal.
  apply list_eq. intros i. rewrite list_lookup_imap.
  destruct (rws !! i) as [[l r]|] eqn:Hr; [simpl|done].
  change (map ?f ?l) with (f <$> l). rewrite list_lookup_fmap, Hr. simpl.
  do 2 f_equal. destruct (r !! j) as [x|] eqn:Hx; simpl.
  - by apply list_insert_id.
  - apply list_insert_ge. by apply lookup_ge_None.
Qed.

Lemma coerce_column_stable c df s :
  getitem_col df c = Ok s → to_numeric_coerce s = s →
  coerce_column c df = Ok df.
Proof.
  intros Hs Hst. unfold coerce_column. rewrite Hs, bind_Ok, Hst.
  by rewrite setitem_col_same.
Qed.

(** X3. Loading is idempotent: a table the loader has returned is returned
    unchanged when it is loaded again. *)
Theorem load_static_data_idempotent (file df : DataFrame F) :
  load_static_data file = Ok df → load_static_data df = Ok df.
Proof.
  unfold load_static_data at 1. intros H.
  destruct (coerce_column _ file) as [d1|] eqn:E1; [rewrite bind_Ok in H|done].
  destruct (coerce_column _ d1) as [d2|] eqn:E2; [rewrite bind_Ok in H|done].
  destruct (coerce_column _ d2) as [d3|] eqn:E3; [rewrite bind_Ok in H|done].
  destruct (coerce_column _ d3) as [d4|] eqn:E4; [rewrite bind_Ok in H|done].
  injection H as <-.
  assert (∀ c d d', coerce_column c d = Ok d' →
    ∃ s, getitem_col d c = Ok s ∧ getitem_col d' c = Ok (to_numeric_coerce s)) as Hco.
  { intros c d d' E. destruct (getitem_col d c) as [s|] eqn:Hs.
    - exists s. split; [done|]. by eapply getitem_col_coerced.
    - unfold coerce_column in E. by rewrite Hs in E. }
  destruct (Hco _ _ _ E1) as (s1 & _ & G1). destruct (Hco _ _ _ E2) as (s2 & _ & G2).
  destruct (Hco _ _ _ E3) as (s3 & _ & G3). destruct (Hco _ _ _ E4) as (s4 & _ & G4).
  rewrite <- (getitem_col_other _ _ _ _ E2), <- (getitem_col_other _ _ _ _ E3),
    <- (getitem_col_other _ _ _ _ E4) in G1 by done.
  rewrite <- (getitem_col_other _ _ _ _ E3), <- (getitem_col_other _ _ _ _ E4)
    in G2 by done.
  rewrite <- (getitem_col_other _ _ _ _ E4) in G3 by done.
  unfold load_static_data.
  rewrite (coerce_column_stable _ _ _ G1), bind_Ok by apply to_numeric_coerce_idem.
  rewrite (coerce_column_stable _ _ _ G2), bind_Ok by apply to_numeric_coerce_idem.
  rewrite (coerce_column_stable _ _ _ G3), bind_Ok by apply to_numeric_coerce_idem.
  rewrite (coerce_column_stable _ _ _ G4), bind_Ok by apply to_numeric_coerce_idem.
  done.
Qed.

(** ** The live fetcher: errors, the shape of the table, what is read *)

(** X5. A response body without the key [near_earth_objects] (the error
    body of the service, any JSON value that is not an object) makes the
    fetcher raise: KeyError on an object, TypeError otherwise. The render
    then ends with the loader's error if the loader raised, and with this
    one if it did not. *)
Theorem fetch_without_near_earth_objects os container_str (file : DataFrame F)
    api_data selection :
  get "near_earth_objects" api_data = None →
  fetch_nasa_data api_data =
    Err (if is_dict api_data then KeyError else TypeError) ∧
  render os container_str file api_data selection =
    match load_static_data file with
    | Ok _ => Err (if is_dict api_data then KeyError else TypeError)
    | Err e => Err e
    end.
Proof.
  intros Hget.
  assert (fetch_nasa_data api_data =
    Err (if is_dict api_data then KeyError else TypeError)) as Hfetch.
  { unfold fetch_nasa_data, fetch_neos.
    destruct api_data; simpl in *; try done. by rewrite Hget. }
  split; [done|]. unfold render, load_and_combine.
  destruct (load_static_data file); [|done]. by rewrite bind_Ok, Hfetch.
Qed.

Lemma imap_labels {A B} (g : A → B) (l : list A) :
  (imap (λ i x, (i, g x)) l).*1 = seq 0 (length l).
Proof.
  apply list_eq. intros i. rewrite list_lookup_fmap, list_lookup_imap.
  destruct (l !! i) as [x|] eqn:E; simpl; symmetry.
  - apply lookup_seq. split; [done|]. by eapply lookup_lt_Some.
  - apply lookup_ge_None. rewrite length_seq. by apply lookup_ge_None.
Qed.

(** X6. Whatever the response, a table the fetcher returns is well formed,
    its rows are labelled 0, 1, 2, ... and it has either no row and no
    column, or the ten columns of a flat record. *)
Theorem fetched_table_shape api_data (d : DataFrame F) :
  fetch_nasa_data api_data = Ok d →
  wf_df d ∧
  (rows d).*1 = seq 0 (length (rows d)) ∧
  (rows d = [] → columns d = []) ∧
  (rows d ≠ [] → columns d = neo_columns).
Proof.
  intros H. split; [by apply fetch_nasa_data_inv in H as [? _]|].
  unfold fetch_nasa_data in H.
  destruct (fetch_neos api_data) as [recs|] eqn:E; [|done].
  injection H as <-. apply fetch_neos_keys in E. simpl. split_and!.
  - by rewrite imap_labels, length_imap.
  - by destruct recs.
  - intros Hne. apply record_keys_neo; [done|]. by intros ->.
Qed.

Lemma fetch_neos_Forall (P : list (string * value F) → Prop) api_data
    (recs : list (list (string * value F))) :
  (∀ obj rec, flatten_neo obj = Ok rec → P rec) →
  fetch_neos api_data = Ok recs → Forall P recs.
Proof.
  intros HP. unfold fetch_neos. intros H.
  destruct (subscript api_data _) as [neo|]; [rewrite bind_Ok in H|done].
  destruct (py_iter neo) as [dates|]; [rewrite bind_Ok in H|done].
  destruct (mapM _ dates) as [per_date|] eqn:E; [rewrite bind_Ok in H|done].
  injection H as <-. apply mapM_Ok_inv in E.
  induction E as [|date recs dates per_date Hd _ IH]; [done|].
  simpl. apply Forall_app. split; [|done]. clear IH.
  rewrite bind_Ok in Hd.
  destruct (subscript neo date) as [objs|]; [rewrite bind_Ok in Hd|done].
  destruct (py_iter objs) as [l|]; [rewrite bind_Ok in Hd|done].
  apply mapM_Ok_inv in Hd. induction Hd as [|obj rec l recs Hobj _ IH]; [done|].
  constructor; [|done]. by eapply HP.
Qed.

Lemma flatten_neo_floats obj (rec : list (string * value F)) :
  flatten_neo obj = Ok rec →
  rec.*1 = neo_columns ∧
  ∃ x y, dict_get "relative_velocity_kmph" rec = Some (VFloat x) ∧
         dict_get "miss_distance_km" rec = Some (VFloat y).
Proof.
  unfold flatten_neo. intros H. bind_inv H. injection H as <-.
  split; [done|]. by eexists _, _.
Qed.

(** X7. Every row of a fetched table holds a float under the velocity and
    under the miss distance: [float] has been applied to both, whatever the
    feed held (text, an int, a Boolean). *)
Theorem fetched_velocity_and_distance_are_floats api_data (d : DataFrame F) i :
  fetch_nasa_data api_data = Ok d → i < length (rows d) →
  ∃ x y, df_cell d i "relative_velocity_kmph" = Some (VFloat x) ∧
         df_cell d i "miss_distance_km" = Some (VFloat y).
Proof.
  unfold fetch_nasa_data.
  destruct (fetch_neos api_data) as [recs|] eqn:E; [|done].
  intros [= <-]. simpl. rewrite length_imap. intros Hi.
  destruct (lookup_lt_is_Some_2 _ _ Hi) as [rec Hrec].
  pose proof (fetch_neos_Forall _ _ _ flatten_neo_floats E) as Hall.
  assert (record_keys recs = neo_columns) as Hkeys.
  { apply record_keys_neo.
    - eapply Forall_impl; [done|]. by intros ? [? _].
    - intros ->. simpl in Hi. lia. }
  rewrite Forall_forall in Hall.
  destruct (Hall rec) as (_ & x & y & Hx & Hy); [by eapply list_elem_of_lookup_2|].
  exists x, y. unfold df_cell. simpl. rewrite list_lookup_imap, Hrec. simpl.
  rewrite Hkeys.
  rewrite !(cell_at_map (λ c, default VNone (dict_get c rec)))
    by (unfold neo_columns; by repeat constructor).
  by rewrite Hx, Hy.
Qed.

Lemma mapM_app {A B} (g : A → result B) (l1 l2 : list A) :
  mapM g (l1 ++ l2) = xs ← mapM g l1; ys ← mapM g l2; Ok (xs ++ ys).
Proof.
  induction l1 as [|x l1 IH].
  - change (mapM g []) with (Ok (@nil B)). rewrite bind_Ok. simpl.
    by destruct (mapM g l2).
  - rewrite <- app_comm_cons, !mapM_cons, IH.
    destruct (g x); [|done]. rewrite !bind_Ok.
    destruct (mapM g l1); [|done]. rewrite !bind_Ok.
    by destruct (mapM g l2).
Qed.

(** the two loops are one pass over the objects, in feed order *)
Lemma fetch_neos_one_pass api_data days :
  feed_of api_data days →
  fetch_neos api_data = mapM flatten_neo (concat days.*2).
Proof.
  intros Hfeed. rewrite (fetch_neos_unfold _ _ Hfeed). clear Hfeed.
  induction days as [|d days IH]; [done|].
  rewrite fmap_cons, mapM_cons. cbn [concat]. rewrite mapM_app, <- IH.
  destruct (mapM flatten_neo d.2); [|done]. rewrite !bind_Ok.
  by destruct (mapM _ days).
Qed.

Lemma mapM_first_error {A B} (g : A → result B) (pre post : list A) x e :
  Forall (λ y, is_Ok (g y)) pre → g x = Err e →
  mapM g (pre ++ x :: post) = Err e.
Proof.
  intros Hpre Hx. rewrite mapM_app, mapM_cons, Hx.
  induction Hpre as [|y pre [z Hz] _ IH]; [done|].
  rewrite mapM_cons, Hz, bind_Ok. by destruct (mapM g pre).
Qed.

(** X8. The fetcher stops at the first object, in feed order, whose
    flattening raises, and raises that error; what follows in the feed is
    not looked at. *)
Theorem first_failing_object_decides api_data days (pre post : list (value F)) obj e :
  feed_of api_data days →
  concat days.*2 = pre ++ obj :: post →
  Forall (λ o, is_Ok (flatten_neo o)) pre →
  flatten_neo obj = Err e →
  fetch_nasa_data api_data = Err e.
Proof.
  intros Hfeed Hobjs Hpre Hobj. unfold fetch_nasa_data.
  rewrite (fetch_neos_one_pass _ _ Hfeed), Hobjs.
  by rewrite (mapM_first_error _ _ _ _ _ Hpre Hobj).
Qed.

(** X9. A feed without objects (no date, or dates with empty arrays) gives
    the table without rows or columns. *)
Theorem fetch_empty_feed api_data days :
  feed_of api_data days → concat days.*2 = [] →
  fetch_nasa_data api_data = Ok empty_table.
Proof.
  intros Hfeed Hnil. unfold fetch_nasa_data.
  by rewrite (fetch_neos_one_pass _ _ Hfeed), Hnil.
Qed.

Lemma dict_get_cons k k' (x : value F) (d : list (string * value F)) :
  dict_get k ((k', x) :: d) = if decide (k' = k) then Some x else dict_get k d.
Proof.
  unfold dict_get. simpl. case_decide; [done|].
  by destruct (list_find _ d) as [[? [? ?]]|].
Qed.

Lemma dict_get_set_approaches k (l : list (value F)) (d : list (string * value F)) :
  dict_get k (map (λ p, if decide (p.1 = "close_approach_data")
                        then (p.1, VList l) else p) d) =
  if decide (k = "close_approach_data")
  then (λ _, VList l) <$> dict_get k d else dict_get k d.
Proof.
  induction d as [|[k' x] d IH]; [by case_decide|].
  simpl map. destruct (decide (k' = "close_approach_data")) as [->|Hk'].
  - simpl fst. rewrite !dict_get_cons, IH. by repeat case_decide; simplify_eq.
  - rewrite !dict_get_cons, IH. by repeat case_decide; simplify_eq.
Qed.

(** X10. Of the close-approach list only the first entry is read: an object
    whose list has the same first entry and any other tail is flattened to
    the same record, or raises the same error. *)
Theorem only_first_approach_is_read obj ca (rest rest' : list (value F)) :
  get "close_approach_data" obj = Some (VList (ca :: rest)) →
  flatten_neo (set_approaches (ca :: rest') obj) = flatten_neo obj.
Proof.
  destruct obj as [| | | | | |d]; try done. simpl. intros Hd.
  unfold flatten_neo. cbn [subscript].
  rewrite !dict_get_set_approaches.
  repeat (rewrite decide_False by done).
  rewrite !decide_True by done. rewrite Hd. reflexivity.
Qed.

Lemma subscript_str_inv v k x : subscript v (VStr k) = Ok x → get k v = Some x.
Proof.
  destruct v; simpl; try done. destruct (dict_get k d); simpl; by intros [= ->].
Qed.

Lemma subscript_zero_inv v x :
  subscript v (VInt 0) = Ok x →
  (∃ l, v = VList (x :: l)) ∨ (∃ s, x = VStr s).
Proof.
  destruct v as [| | | |s|l|]; simpl; try done.
  - destruct s; simpl; [done|]. intros [= <-]. eauto.
  - destruct l; simpl; [done|]. intros [= <-]. eauto.
Qed.

(** what a successful [obj['close_approach_data'][0][k]] tells *)
Lemma subscript_approach_inv obj k x :
  (subscript obj (VStr "close_approach_data") ≫=
     λ v, subscript v (VInt 0) ≫= λ v, subscript v (VStr k)) = Ok x →
  ∃ ca, first_approach obj = Some ca ∧ get k ca = Some x.
Proof.
  intros H.
  destruct (subscript obj _) as [l|] eqn:E1; [rewrite bind_Ok in H|done].
  destruct (subscript l _) as [ca|] eqn:E2; [rewrite bind_Ok in H|done].
  apply subscript_str_inv in E1, H.
  apply subscript_zero_inv in E2 as [[rest ->]|[s ->]]; [|done].
  exists ca. split; [|done]. unfold first_approach. by rewrite E1.
Qed.

Lemma has_get k v x : get k v = Some x → has k v = true ∧ field k v = x.
Proof. unfold has, field. by intros ->. Qed.

(** X11. The fetcher accepts exactly the objects of the documented shape:
    flattening an object raises nothing if and only if the object has the
    six fields read from it, a diameter in kilometers with both bounds, and
    a close-approach list whose first entry has the date, the orbiting body,
    and a velocity and a distance that [float] accepts. *)
Theorem flatten_neo_accepts_iff_shaped obj :
  is_Ok (flatten_neo obj) ↔ shaped_neo obj = true.
Proof.
  split; [|intros H; eexists; by apply flatten_neo_shaped].
  intros [rec H]. unfold flatten_neo in H.
  bind_step H km Ekm. bind_step Ekm dia Edia.
  apply subscript_str_inv, has_get in Edia as [Hdia Fdia].
  apply subscript_str_inv, has_get in Ekm as [Hkm Fkm].
  bind_step H rel_vel Evel. bind_step H miss_dist Edist.
  bind_step H oid Eid. bind_step H oname Ename. bind_step H mag Emag.
  bind_step H dmin Emin. bind_step H dmax Emax. bind_step H haz Ehaz.
  bind_step H date Edate. bind_step H vel Fvel. bind_step H dist Fdist.
  bind_step H body Ebody. clear H.
  apply subscript_str_inv, has_get in Eid as [Hid _].
  apply subscript_str_inv, has_get in Ename as [Hname _].
  apply subscript_str_inv, has_get in Emag as [Hmag _].
  apply subscript_str_inv, has_get in Emin as [Hmin _].
  apply subscript_str_inv, has_get in Emax as [Hmax _].
  apply subscript_str_inv, has_get in Ehaz as [Hhaz _].
  apply subscript_approach_inv in Edate as (ca & Hca & [Hdate _]%has_get).
  apply subscript_approach_inv in Ebody as (ca' & Hca' & [Hbody _]%has_get).
  assert (ca' = ca) as -> by congruence.
  assert (∀ k1 k2 x,
    (subscript obj (VStr "close_approach_data") ≫=
       λ v, subscript v (VInt 0) ≫= λ v, subscript v (VStr k1) ≫=
       λ v, subscript v (VStr k2)) = Ok x →
    has k1 ca = true ∧ has k2 (field k1 ca) = true ∧ field k2 (field k1 ca) = x)
    as Hnested.
  { intros k1 k2 x Hx.
    bind_step Hx l E1. bind_step Hx c E2. bind_step Hx y E3.
    apply subscript_str_inv in E1, E3, Hx.
    apply subscript_zero_inv in E2 as [[rest ->]|[s ->]]; [|done].
    assert (c = ca) as ->.
    { unfold first_approach in Hca. rewrite E1 in Hca. by injection Hca. }
    apply has_get in E3 as [? ->]. by apply has_get in Hx as [? ?]. }
  apply Hnested in Evel as (Hv1 & Hv2 & Fv). apply Hnested in Edist as (Hd1 & Hd2 & Fd).
  unfold shaped_neo, has_diameter. rewrite Hca, Fdia, Fkm, Fv, Fd.
  unfold float_ok. rewrite Fvel, Fdist.
  by rewrite Hdia, Hkm, Hmin, Hmax, Hid, Hname, Hmag, Hhaz, Hdate, Hbody, Hv1, Hv2,
    Hd1, Hd2.
Qed.

(** X12. The date key under which the feed lists an object is not
    recorded: two feeds with the same objects in the same order, grouped
    under whatever dates, give the same result. *)
Theorem fetch_ignores_date_keys api_data api_data' days days' :
  feed_of api_data days → feed_of api_data' days' →
  concat days.*2 = concat days'.*2 →
  fetch_nasa_data api_data = fetch_nasa_data api_data'.
Proof.
  intros H1 H2 Heq. unfold fetch_nasa_data.
  by rewrite (fetch_neos_one_pass _ _ H1), (fetch_neos_one_pass _ _ H2), Heq.
Qed.

(** X13. Of the response only the value under [near_earth_objects] is
    read: two responses that agree on it give the same result. *)
Theorem fetch_reads_only_near_earth_objects api_data api_data' neos :
  get "near_earth_objects" api_data = Some neos →
  get "near_earth_objects" api_data' = Some neos →
  fetch_nasa_data api_data = fetch_nasa_data api_data'.
Proof.
  intros H1%subscript_get H2%subscript_get.
  unfold fetch_nasa_data, fetch_neos. by rewrite !H1, !H2.
Qed.

(** ** Concatenation *)

Lemma reindex_same (cols : list string) (row : list (value F)) :
  NoDup cols → length row = length cols → reindex cols cols row = row.
Proof.
  intros Hnd Hlen. apply list_eq. intros j. unfold reindex.
  change (map ?g ?l) with (g <$> l). rewrite list_lookup_fmap.
  destruct (cols !! j) as [c|] eqn:Hc; simpl.
  - unfold cell_at. rewrite (col_pos_NoDup _ _ _ Hnd Hc).
    destruct (row !! j) eqn:Hr; [done|].
    apply lookup_ge_None in Hr. apply lookup_lt_Some in Hc. lia.
  - symmetry. apply lookup_ge_None. apply lookup_ge_None in Hc. lia.
Qed.

(** X14. Concatenating a well-formed table with the table without rows or
    columns (the fetcher's result on a day without objects) gives the table
    itself, its rows relabelled 0, 1, 2, ... *)
Theorem pd_concat_empty_table a : wf_df a → pd_concat a empty_table = relabel a.
Proof.
  intros [Hnd Hw]. unfold pd_concat, relabel, union_columns. simpl.
  rewrite filter_nil, !app_nil_r. f_equal.
  apply list_eq. intros i. rewrite !list_lookup_imap, concat_rows_lookup.
  destruct (rows a !! i) as [r|] eqn:Hr; [simpl|done].
  assert (length r.2 = length (columns a)) as Hlen.
  { rewrite Forall_forall in Hw. apply Hw. by eapply list_elem_of_lookup_2. }
  rewrite reindex_same by done. do 2 f_equal.
  apply list_eq. intros k. rewrite lookup_zip_with.
  destruct (r.2 !! k) as [v|] eqn:Hv.
  - destruct (columns a !! k) as [c|] eqn:Hc; simpl.
    + by rewrite concat_cell_no_rows.
    + apply lookup_ge_None in Hc. apply lookup_lt_Some in Hv. lia.
  - by destruct (columns a !! k).
Qed.

(** X15. The rows of a concatenation are labelled 0, 1, 2, ... whatever the
    labels of the two sources were. *)
Theorem pd_concat_labels a b :
  (rows (pd_concat a b)).*1 = seq 0 (length (rows a) + length (rows b)).
Proof.
  unfold pd_concat. simpl. etrans; [apply (imap_labels (λ x, x))|].
  by rewrite length_app, !length_concat_rows.
Qed.

(** ** The hazard filter *)

(** X16. The filter raises in one case only: the selection is Yes or No and
    the table has no hazard column; the error is then KeyError. *)
Theorem hazard_filter_raises_iff selection df e :
  hazard_filter selection df = Err e ↔
  (selection = "Yes" ∨ selection = "No") ∧ (hazard_column ∉ columns df) ∧
  e = KeyError.
Proof.
  unfold hazard_filter. destruct (decide (hazard_column ∈ columns df)).
  - rewrite !filter_eq_spec by done. repeat case_decide; intuition congruence.
  - rewrite !filter_eq_absent by done. repeat case_decide; intuition congruence.
Qed.

Lemma flag_is_exclusive df r :
  float_of_bool true ≠ float_of_bool false →
  flag_is true df r → flag_is false df r → False.
Proof.
  unfold flag_is. intros Hne. destruct (hazard_flag df r); simpl; try done;
    rewrite !bool_decide_eq_true; congruence.
Qed.

Lemma filter_three_way {A} (P Q : A → Prop)
    `{!∀ x, Decision (P x), !∀ x, Decision (Q x)} (l : list A) :
  (∀ x, P x → Q x → False) →
  filter P l ++ filter Q l ++ filter (λ x, ¬ P x ∧ ¬ Q x) l ≡ₚ l.
Proof.
  intros Hex. induction l as [|x l IH]; [done|]. rewrite !filter_cons.
  destruct (decide (P x)) as [HP|HP]; [|destruct (decide (Q x)) as [HQ|HQ]].
  - rewrite decide_False by (intros ?; by eapply Hex).
    rewrite decide_False by tauto. simpl. by f_equiv.
  - rewrite decide_False by tauto. simpl.
    rewrite <- Permutation_middle. by f_equiv.
  - rewrite decide_True by tauto.
    rewrite app_assoc, <- Permutation_middle, <- app_assoc. by f_equiv.
Qed.

(** X17. Yes and No split the table: the rows shown under Yes, the rows
    shown under No and the rows whose flag equals neither True nor False
    (shown under All only) are together the rows of the table, each once. *)
Theorem hazard_filter_partitions df (yes no : DataFrame F) :
  float_of_bool true ≠ float_of_bool false →
  hazard_filter "Yes" df = Ok yes → hazard_filter "No" df = Ok no →
  rows yes ++ rows no ++
    filter (λ r, ¬ flag_is true df r ∧ ¬ flag_is false df r) (rows df)
  ≡ₚ rows df.
Proof.
  intros Hne. unfold hazard_filter. simpl.
  destruct (decide (hazard_column ∈ columns df)) as [Hc|Hc].
  - rewrite !filter_eq_spec by done. intros [= <-] [= <-]. simpl.
    apply filter_three_way. intros r. by apply flag_is_exclusive.
  - by rewrite filter_eq_absent.
Qed.

(** X18. No row passes both filters: filtering by No what Yes returned
    leaves no row, and the other way round. *)
Theorem hazard_filter_yes_then_no df (yes no : DataFrame F) s1 s2 :
  float_of_bool true ≠ float_of_bool false →
  (s1 = "Yes" ∧ s2 = "No") ∨ (s1 = "No" ∧ s2 = "Yes") →
  hazard_filter s1 df = Ok yes → hazard_filter s2 yes = Ok no →
  rows no = [] ∧ columns no = columns df.
Proof.
  intros Hne Hsel.
  assert (∀ (f1 f2 : bool) (x y : DataFrame F), f1 ≠ f2 →
    filter_eq f1 df = Ok x → filter_eq f2 x = Ok y →
    rows y = [] ∧ columns y = columns df) as Hgen.
  { intros f1 f2 x y Hb.
    destruct (decide (hazard_column ∈ columns df)) as [Hc|Hc].
    2:{ by rewrite filter_eq_absent. }
    rewrite filter_eq_spec by done. intros [= <-].
    rewrite filter_eq_spec by done. intros [= <-]. simpl. split; [|done].
    rewrite list_filter_filter.
    induction (rows df) as [|r l IH]; [done|]. rewrite filter_cons.
    rewrite decide_False; [done|]. intros [H2 H1].
    change (flag_is f2 df r) in H2.
    destruct f1, f2; try done; by eapply flag_is_exclusive. }
  unfold hazard_filter.
  destruct Hsel as [[-> ->]|[-> ->]]; simpl; by apply Hgen.
Qed.

(** ** The page of a render *)

Lemma imap_label_lookup {A} (l : list A) (p : nat * A) :
  p ∈ imap (λ i x, (i, x)) l → imap (λ i x, (i, x)) l !! p.1 = Some p.
Proof.
  intros [i Hi]%list_elem_of_lookup. pose proof Hi as Hi'.
  rewrite list_lookup_imap in Hi'. by apply fmap_Some in Hi' as (x & _ & ->).
Qed.

(** X19. The table shown keeps the labels of the combined table: the filter
    does not renumber, so the label of a shown row is its position in the
    combined table, and no two shown rows have the same label. *)
Theorem shown_rows_keep_combined_labels os container_str (file : DataFrame F)
    api_data selection pg :
  render os container_str file api_data selection = Ok pg →
  ∃ s d, load_static_data file = Ok s ∧ fetch_nasa_data api_data = Ok d ∧
    NoDup (rows (shown pg)).*1 ∧
    ∀ r, r ∈ rows (shown pg) → rows (pd_concat s d) !! r.1 = Some r.
Proof.
  intros (s & d & Hs & Hd & Hf & _)%render_inv. exists s, d.
  apply hazard_filter_inv in Hf as [_ Hsub]. split_and!; [done..| |].
  - eapply sublist_NoDup; [|by apply fmap_sublist].
    unfold pd_concat. simpl. rewrite (imap_labels (λ x, x)). apply NoDup_seq.
  - intros r Hr. apply imap_label_lookup. by eapply elem_of_sublist.
Qed.

Lemma coerce_column_labels c df df' :
  coerce_column c df = Ok df' → (rows df').*1 = (rows df).*1.
Proof.
  intros E. destruct (coerce_column_spec c df) as (x & E' & _ & L & _).
  - by eapply coerce_column_inv.
  - rewrite E in E'. by injection E' as <-.
Qed.

Lemma load_static_data_length file df :
  load_static_data file = Ok df → length (rows df) = length (rows file).
Proof.
  unfold load_static_data. intros H.
  bind_step H d1 E1. bind_step H d2 E2. bind_step H d3 E3. bind_step H d4 E4.
  injection H as <-.
  apply coerce_column_labels in E1, E2, E3, E4.
  rewrite <- (length_fmap fst (rows d4)), E4, E3, E2, E1. by rewrite length_fmap.
Qed.

(** X20. Shape of the table shown: its columns are those of the static file
    followed by the columns only the live table has; it has at most as many
    rows as the file and the live table together, and exactly as many when
    the selection is neither Yes nor No. *)
Theorem shown_table_shape os container_str (file : DataFrame F) api_data
    selection pg :
  render os container_str file api_data selection = Ok pg →
  ∃ d, fetch_nasa_data api_data = Ok d ∧
    columns (shown pg) = union_columns (columns file) (columns d) ∧
    (length (rows (shown pg)) ≤ length (rows file) + length (rows d))%nat ∧
    (selection ≠ "Yes" → selection ≠ "No" →
       length (rows (shown pg)) = (length (rows file) + length (rows d))%nat).
Proof.
  intros (s & d & Hs & Hd & Hf & _)%render_inv. exists d. split; [done|].
  pose proof (load_static_data_length _ _ Hs) as Hlen.
  apply load_static_data_inv in Hs as (Cs & _ & _).
  pose proof (hazard_filter_inv _ _ _ Hf) as [Cf Hsub].
  apply sublist_length in Hsub. rewrite length_pd_concat, Hlen in Hsub.
  split_and!; [by rewrite Cf; simpl; rewrite Cs|done|].
  intros Hy Hn. unfold hazard_filter in Hf. rewrite !decide_False in Hf by done.
  injection Hf as <-. by rewrite length_pd_concat, Hlen.
Qed.

(** X21. A page is produced only when the table shown has the six columns
    the charts read: the four numeric columns, the hazard flag and the
    orbiting body. *)
Theorem page_needs_chart_columns os container_str (file : DataFrame F) api_data
    selection pg :
  render os container_str file api_data selection = Ok pg →
  Forall (λ c, c ∈ columns (shown pg))
         (numeric_columns ++ [hazard_column; "orbiting_body"]).
Proof.
  intros (s & d & Hs & _ & Hf & _ & Hhz & Hob)%render_inv.
  apply load_static_data_inv in Hs as (Cs & Hnum & _).
  apply hazard_filter_inv in Hf as [Cf _].
  apply Forall_app. split; [|by repeat constructor].
  eapply Forall_impl; [done|]. intros c Hc. rewrite Cf. simpl.
  apply elem_of_union_columns. left. by rewrite Cs.
Qed.

(** ** The export *)

(** X23. The export does not write the row labels: two tables with the same
    columns and the same cells, row by row, are exported to the same text. *)
Theorem to_csv_ignores_labels os container_str a b :
  columns a = columns b → (rows a).*2 = (rows b).*2 →
  to_csv os container_str a = to_csv os container_str b.
Proof.
  intros Hc Hr. unfold to_csv. rewrite Hc. do 3 f_equal.
  rewrite <- (map_map snd (λ l, write_row os (map (csv_cell container_str) l))).
  rewrite <- (map_map snd (λ l, write_row os (map (csv_cell container_str) l)) (rows b)).
  change (map snd ?l) with (l.*2). by rewrite Hr.
Qed.

End Facts.

(** * The pipeline on the demo inputs *)

Ltac by_computation := apply (bool_decide_unpack _); vm_compute; reflexivity.

(** The end-to-end scenario: a static file of two rows, one hazardous and
    with the distance text [N/A], and a live feed of one non-hazardous
    object; selecting "Yes" shows exactly the hazardous static row, its
    distance missing. *)
Example end_to_end_scenario :
  rows <$> (shown <$> render Posix Demo.no_containers Demo.static_file Demo.live_one "Yes") =
    Ok [(0%nat, [VInt 2000433; VStr "433 Eros"; VFloat 500%Z; VFloat 600%Z;
                 VBool true; VStr "2020-01-01"; VFloat 20000000%Z; VNone;
                 VStr "Earth"; VNone])].
Proof. vm_compute. reflexivity. Qed.

(** Python subscripts and [pd.to_numeric] on small inputs. *)
Example subscript_negative_index :
  subscript (VList [VInt 1; VInt 2; VInt 3]) (VInt (-1)) = Ok (VInt 3 : value Z).
Proof. reflexivity. Qed.

Example subscript_empty_list :
  subscript (VList []) (VInt 0) = Err (A:=value Z) IndexError.
Proof. reflexivity. Qed.

Example subscript_missing_key :
  subscript (VDict [("id", VStr "1")]) (VStr "name") = Err (A:=value Z) KeyError.
Proof. reflexivity. Qed.

Example to_numeric_mixed_column :
  to_numeric_coerce [VStr "1.5"; VStr "abc"; VNone; VBool true] =
    [VFloat 1500%Z; VNone; VNone; VFloat 1000%Z].
Proof. reflexivity. Qed.

Example to_numeric_bool_column :
  to_numeric_coerce [VBool true; VBool false] = [VBool true; VBool false : value Z].
Proof. reflexivity. Qed.

(** The CSV writer and reader on small inputs. *)
Example write_row_quotes :
  String.string_of_list_ascii (write_row Posix ["a,b"; "x"; ""]) =
    String dquote ("a,b" +:+ String dquote (",x," +:+ String LF "")).
Proof. reflexivity. Qed.

Example write_row_single_empty_field :
  write_row Posix [""] = [dquote; dquote; LF].
Proof. reflexivity. Qed.

Example tokenize_skips_blank_lines :
  tokenize (String.list_ascii_of_string
              ("a,b" +:+ String LF (String LF ("  " +:+ String LF ("1,2" +:+ String LF ""))))) =
    Ok [["a"; "b"]; ["1"; "2"]].
Proof. reflexivity. Qed.

Example tokenize_carriage_return_ends_line :
  tokenize (String.list_ascii_of_string
              ("a,b" +:+ String CR (String LF ("1" +:+ String CR "2,3")))) =
    Ok [["a"; "b"]; ["1"; ""]; ["2"; "3"]].
Proof. reflexivity. Qed.

Example tokenize_too_many_fields :
  tokenize (String.list_ascii_of_string
              ("a" +:+ String LF ("1" +:+ String LF ("2,3" +:+ String LF "")))) =
    Err ParserError.
Proof. reflexivity. Qed.

Example tokenize_open_quote :
  tokenize (String.list_ascii_of_string ("a" +:+ String LF (String dquote "1"))) =
    Err ParserError.
Proof. reflexivity. Qed.

(** Why the round trip is stated for two columns or more: in a table of one
    column a cell of blanks is written as a line of blanks, which the
    reader skips. *)
Example single_blank_cell_is_skipped :
  encode_utf8 (to_csv Posix Demo.no_containers
                 {| columns := ["name"]; rows := [(0%nat, [VStr " "])] |})
    ≫= read_csv_records =
    Ok (["name"], []).
Proof. reflexivity. Qed.

(** The export of a name with a lone surrogate raises; the render ends
    there. *)
Example export_raises_on_lone_surrogate :
  render Posix Demo.no_containers Demo.static_file Demo.live_lone_surrogate "All" =
    Err UnicodeEncodeError.
Proof. vm_compute. reflexivity. Qed.

(** The writer quotes a name with a comma, and the carriage return in it
    with it. *)
Example write_row_quotes_carriage_return :
  write_row Posix ["a," +:+ String CR "b"; "x"] =
    [dquote; "a"; ","; CR; "b"; dquote; ","; "x"; LF]%char.
Proof. reflexivity. Qed.

(** [pd.concat] turns a column of ints into floats next to a frame that
    lacks the column. *)
Example pd_concat_upcasts_ints :
  rows (pd_concat Demo.counts Demo.flags_table) =
    [(0%nat, [VStr "a"; VFloat 9007199254740993000%Z; VNone]);
     (1%nat, [VStr "a"; VNone; VBool true]);
     (2%nat, [VStr "b"; VNone; VNone]);
     (3%nat, [VStr "c"; VNone; VBool false])].
Proof. vm_compute. reflexivity. Qed.

Lemma hazard_filter_tri_state_witness :
  hazard_column ∈ columns Demo.combined ∧
  hazard_filter "Yes" Demo.combined =
    Ok {| columns := columns Demo.combined;
          rows := filter (flag_is true Demo.combined) (rows Demo.combined) |}.
Proof.
  assert (hazard_column ∈ columns Demo.combined) as H by by_computation.
  split; [exact H|]. exact (proj1 (proj2 (hazard_filter_tri_state Demo.combined H))).
Defined.

Lemma hazard_filter_idempotent_witness :
  hazard_column ∈ columns Demo.combined ∧
  ∃ yes, hazard_filter "Yes" Demo.combined = Ok yes ∧ hazard_filter "Yes" yes = Ok yes.
Proof.
  assert (hazard_column ∈ columns Demo.combined) as H by by_computation.
  split; [exact H|]. exact (proj1 (hazard_filter_idempotent Demo.combined H)).
Defined.

Lemma missing_flag_only_under_all_witness :
  hazard_column ∈ columns Demo.flags_table ∧
  "No" ∈ options ∧
  (1%nat, [VStr "b"; VNone]) ∈ rows Demo.flags_table ∧
  hazard_flag Demo.flags_table (1%nat, [VStr "b"; VNone]) = VNone ∧
  ∃ out, hazard_filter "No" Demo.flags_table = Ok out ∧
         ((1%nat, [VStr "b"; VNone]) ∈ rows out ↔ "No" = "All").
Proof.
  assert (hazard_column ∈ columns Demo.flags_table) as H1 by by_computation.
  assert ("No" ∈ options) as H2 by by_computation.
  assert ((1%nat, [VStr "b"; VNone]) ∈ rows Demo.flags_table) as H3.
  { simpl. apply list_elem_of_further, list_elem_of_here. }
  assert (hazard_flag Demo.flags_table (1%nat, [VStr "b"; VNone]) = VNone) as H4
    by reflexivity.
  split_and!; [done..|].
  exact (missing_flag_only_under_all Demo.flags_table _ "No" H1 H2 H3 H4).
Defined.

Lemma wf_demo_loaded : wf_df Demo.loaded.
Proof. split; [by_computation|]. simpl. repeat constructor. Qed.




Lemma load_static_data_coerces_witness :
  Forall (λ c, c ∈ columns Demo.static_file) numeric_columns ∧
  ∃ df, load_static_data Demo.static_file = Ok df ∧
        df_cell df 1 "estimated_diameter_min_km" = Some VNone.
Proof.
  assert (Forall (λ c, c ∈ columns Demo.static_file) numeric_columns) as H
    by by_computation.
  split; [exact H|].
  destruct (load_static_data_coerces Demo.static_file H)
    as (df & Hdf & _ & _ & _ & Hcells & _).
  exists df. split; [exact Hdf|].
  apply (Hcells 1%nat "estimated_diameter_min_km" "unknown");
    [by_computation|reflexivity..].
Defined.

Lemma filter_frame_witness :
  wf_session Demo.session0 ∧
  deref Demo.session0 (combined_df Demo.session0) = Ok Demo.combined ∧
  hazard_column ∈ columns Demo.combined ∧
  ∃ σ', apply_filter "Yes" Demo.session0 = Ok σ' ∧
        deref σ' (static_df σ') = Ok Demo.loaded ∧
        deref σ' (dynamic_df σ') = Ok Demo.fetched.
Proof.
  assert (wf_session Demo.session0) as H1 by (unfold wf_session; simpl; lia).
  assert (deref Demo.session0 (combined_df Demo.session0) = Ok Demo.combined) as H2
    by reflexivity.
  assert (hazard_column ∈ columns Demo.combined) as H3 by by_computation.
  split_and!; [done..|].
  destruct (filter_frame Demo.session0 "Yes" Demo.combined H1 H2 H3)
    as (σ' & c' & Hσ' & _ & _ & _ & _ & _ & _ & Hs & Hd & _).
  exists σ'. split_and!; [exact Hσ'|by rewrite Hs|by rewrite Hd].
Defined.


Lemma empty_approach_aborts_witness :
  feed_of Demo.live_empty_approach Demo.day_with_empty_approach ∧
  Forall (λ obj, shaped_neo obj = true ∨ empty_approach obj = true)
         (concat Demo.day_with_empty_approach.*2) ∧
  Exists (λ obj, empty_approach obj = true)
         (concat Demo.day_with_empty_approach.*2) ∧
  fetch_nasa_data Demo.live_empty_approach = Err IndexError.
Proof.
  assert (feed_of Demo.live_empty_approach Demo.day_with_empty_approach) as H1.
  { split; [reflexivity|by_computation]. }
  assert (Forall (λ obj, shaped_neo obj = true ∨ empty_approach obj = true)
            (concat Demo.day_with_empty_approach.*2)) as H2.
  { simpl. apply Forall_cons. split; [by left|].
    apply Forall_cons. split; [by right|]. constructor. }
  assert (Exists (λ obj, empty_approach obj = true)
            (concat Demo.day_with_empty_approach.*2)) as H3.
  { simpl. apply Exists_cons_tl, Exists_cons_hd. reflexivity. }
  split_and!; [done..|].
  exact (proj1 (empty_approach_aborts Demo.live_empty_approach
                  Demo.day_with_empty_approach H1 H2 H3)).
Defined.



(** ** The further properties on the same inputs *)

Lemma load_static_data_missing_column_witness :
  ¬ Forall (λ c, c ∈ columns Demo.flags_table) numeric_columns ∧
  load_static_data Demo.flags_table = Err KeyError.
Proof.
  assert (¬ Forall (λ c, c ∈ columns Demo.flags_table) numeric_columns) as H
    by by_computation.
  split; [exact H|]. exact (load_static_data_missing_column Demo.flags_table H).
Defined.

Lemma demo_loaded : load_static_data Demo.static_file = Ok Demo.loaded.
Proof. vm_compute. reflexivity. Qed.

Lemma demo_fetched : fetch_nasa_data Demo.live_one = Ok Demo.fetched.
Proof. vm_compute. reflexivity. Qed.

Lemma demo_page_yes :
  render Posix Demo.no_containers Demo.static_file Demo.live_one "Yes" =
    Ok Demo.page_yes.
Proof. vm_compute. reflexivity. Qed.

Lemma demo_floats_differ : float_of_bool (F:=Z) true ≠ float_of_bool false.
Proof. discriminate. Qed.

Lemma loaded_numeric_columns_hold_no_text_witness :
  load_static_data Demo.static_file = Ok Demo.loaded ∧
  "estimated_diameter_min_km" ∈ numeric_columns ∧
  df_cell Demo.loaded 0 "estimated_diameter_min_km" = Some (VFloat 500%Z) ∧
  is_text (VFloat 500%Z) = false.
Proof.
  assert ("estimated_diameter_min_km" ∈ numeric_columns) as H2 by by_computation.
  assert (df_cell Demo.loaded 0 "estimated_diameter_min_km" = Some (VFloat 500%Z))
    as H3 by reflexivity.
  split_and!; [exact demo_loaded|exact H2|exact H3|].
  exact (loaded_numeric_columns_hold_no_text Demo.static_file Demo.loaded 0
           "estimated_diameter_min_km" _ demo_loaded H2 H3).
Defined.

Lemma load_static_data_idempotent_witness :
  load_static_data Demo.static_file = Ok Demo.loaded ∧
  load_static_data Demo.loaded = Ok Demo.loaded.
Proof.
  split; [exact demo_loaded|].
  exact (load_static_data_idempotent Demo.static_file Demo.loaded demo_loaded).
Defined.

Lemma fetch_without_near_earth_objects_witness :
  get "near_earth_objects" Demo.error_body = None ∧
  fetch_nasa_data Demo.error_body = Err KeyError ∧
  render Posix Demo.no_containers Demo.static_file Demo.error_body "All" =
    Err KeyError.
Proof.
  assert (get "near_earth_objects" Demo.error_body = None) as H by reflexivity.
  split; [exact H|].
  destruct (fetch_without_near_earth_objects Posix Demo.no_containers
              Demo.static_file Demo.error_body "All" H) as [Hf Hr].
  split; [exact Hf|]. rewrite Hr, demo_loaded. reflexivity.
Defined.

Lemma fetched_table_shape_witness :
  fetch_nasa_data Demo.live_one = Ok Demo.fetched ∧
  (rows Demo.fetched).*1 = seq 0 (length (rows Demo.fetched)).
Proof.
  split; [exact demo_fetched|].
  exact (proj1 (proj2 (fetched_table_shape Demo.live_one Demo.fetched demo_fetched))).
Defined.

Lemma fetched_velocity_and_distance_are_floats_witness :
  fetch_nasa_data Demo.live_one = Ok Demo.fetched ∧
  (0 < length (rows Demo.fetched))%nat ∧
  ∃ x y, df_cell Demo.fetched 0 "relative_velocity_kmph" = Some (VFloat x) ∧
         df_cell Demo.fetched 0 "miss_distance_km" = Some (VFloat y).
Proof.
  assert (0 < length (rows Demo.fetched))%nat as H2 by (simpl; lia).
  split_and!; [exact demo_fetched|exact H2|].
  exact (fetched_velocity_and_distance_are_floats Demo.live_one Demo.fetched 0
           demo_fetched H2).
Defined.

Lemma first_failing_object_decides_witness :
  feed_of Demo.live_empty_approach Demo.day_with_empty_approach ∧
  concat Demo.day_with_empty_approach.*2 =
    [Demo.neo "54321" "(2024 AB)" false
       [Demo.approach "2026-11-03" "45000.5" "1200000" "Earth"]] ++
    Demo.neo "99999" "(2025 XY)" true [] :: [] ∧
  Forall (λ o, is_Ok (flatten_neo o))
    [Demo.neo "54321" "(2024 AB)" false
       [Demo.approach "2026-11-03" "45000.5" "1200000" "Earth"]] ∧
  flatten_neo (Demo.neo "99999" "(2025 XY)" true []) = Err IndexError ∧
  fetch_nasa_data Demo.live_empty_approach = Err IndexError.
Proof.
  assert (feed_of Demo.live_empty_approach Demo.day_with_empty_approach) as H1.
  { split; [reflexivity|by_computation]. }
  assert (concat Demo.day_with_empty_approach.*2 =
    [Demo.neo "54321" "(2024 AB)" false
       [Demo.approach "2026-11-03" "45000.5" "1200000" "Earth"]] ++
    Demo.neo "99999" "(2025 XY)" true [] :: []) as H2 by reflexivity.
  assert (Forall (λ o, is_Ok (flatten_neo o))
    [Demo.neo "54321" "(2024 AB)" false
       [Demo.approach "2026-11-03" "45000.5" "1200000" "Earth"]]) as H3.
  { apply Forall_cons. split; [|constructor]. eexists. vm_compute. reflexivity. }
  assert (flatten_neo (Demo.neo "99999" "(2025 XY)" true []) = Err IndexError) as H4
    by (vm_compute; reflexivity).
  split_and!; [exact H1|exact H2|exact H3|exact H4|].
  exact (first_failing_object_decides _ _ _ _ _ _ H1 H2 H3 H4).
Defined.

Lemma fetch_empty_feed_witness :
  feed_of Demo.live_quiet Demo.quiet_day ∧
  concat Demo.quiet_day.*2 = [] ∧
  fetch_nasa_data Demo.live_quiet = Ok empty_table.
Proof.
  assert (feed_of Demo.live_quiet Demo.quiet_day) as H1.
  { split; [reflexivity|by_computation]. }
  assert (concat Demo.quiet_day.*2 = []) as H2 by reflexivity.
  split_and!; [exact H1|exact H2|].
  exact (fetch_empty_feed Demo.live_quiet Demo.quiet_day H1 H2).
Defined.

Lemma only_first_approach_is_read_witness :
  get "close_approach_data"
    (Demo.neo "54321" "(2024 AB)" false
       [Demo.approach "2026-11-03" "45000.5" "1200000" "Earth";
        Demo.approach "2030-01-01" "1" "2" "Mars"]) =
    Some (VList [Demo.approach "2026-11-03" "45000.5" "1200000" "Earth";
                 Demo.approach "2030-01-01" "1" "2" "Mars"]) ∧
  flatten_neo
    (set_approaches [Demo.approach "2026-11-03" "45000.5" "1200000" "Earth"]
       (Demo.neo "54321" "(2024 AB)" false
          [Demo.approach "2026-11-03" "45000.5" "1200000" "Earth";
           Demo.approach "2030-01-01" "1" "2" "Mars"])) =
  flatten_neo
    (Demo.neo "54321" "(2024 AB)" false
       [Demo.approach "2026-11-03" "45000.5" "1200000" "Earth";
        Demo.approach "2030-01-01" "1" "2" "Mars"]).
Proof.
  assert (get "close_approach_data"
    (Demo.neo "54321" "(2024 AB)" false
       [Demo.approach "2026-11-03" "45000.5" "1200000" "Earth";
        Demo.approach "2030-01-01" "1" "2" "Mars"]) =
    Some (VList [Demo.approach "2026-11-03" "45000.5" "1200000" "Earth";
                 Demo.approach "2030-01-01" "1" "2" "Mars"])) as H by reflexivity.
  split; [exact H|].
  exact (only_first_approach_is_read _ _ _ [] H).
Defined.

Lemma fetch_ignores_date_keys_witness :
  feed_of Demo.live_one Demo.one_day ∧
  feed_of Demo.live_other_day Demo.other_day ∧
  concat Demo.one_day.*2 = concat Demo.other_day.*2 ∧
  fetch_nasa_data Demo.live_one = fetch_nasa_data Demo.live_other_day.
Proof.
  assert (feed_of Demo.live_one Demo.one_day) as H1.
  { split; [reflexivity|by_computation]. }
  assert (feed_of Demo.live_other_day Demo.other_day) as H2.
  { split; [reflexivity|by_computation]. }
  assert (concat Demo.one_day.*2 = concat Demo.other_day.*2) as H3 by reflexivity.
  split_and!; [exact H1|exact H2|exact H3|].
  exact (fetch_ignores_date_keys _ _ _ _ H1 H2 H3).
Defined.

Lemma fetch_reads_only_near_earth_objects_witness :
  get "near_earth_objects" Demo.live_quiet =
    Some (VDict [("2026-11-03", VList [])]) ∧
  get "near_earth_objects"
    (VDict [("near_earth_objects", VDict [("2026-11-03", VList [])])] : value Z) =
    Some (VDict [("2026-11-03", VList [])]) ∧
  fetch_nasa_data Demo.live_quiet =
    fetch_nasa_data
      (VDict [("near_earth_objects", VDict [("2026-11-03", VList [])])]).
Proof.
  assert (get "near_earth_objects" Demo.live_quiet =
            Some (VDict [("2026-11-03", VList [])])) as H1 by reflexivity.
  assert (get "near_earth_objects"
    (VDict [("near_earth_objects", VDict [("2026-11-03", VList [])])] : value Z) =
    Some (VDict [("2026-11-03", VList [])])) as H2 by reflexivity.
  split_and!; [exact H1|exact H2|].
  exact (fetch_reads_only_near_earth_objects _ _ _ H1 H2).
Defined.

Lemma pd_concat_empty_table_witness :
  wf_df Demo.loaded ∧ pd_concat Demo.loaded empty_table = relabel Demo.loaded.
Proof.
  split; [exact wf_demo_loaded|].
  exact (pd_concat_empty_table Demo.loaded wf_demo_loaded).
Defined.

Lemma hazard_filter_partitions_witness :
  float_of_bool (F:=Z) true ≠ float_of_bool false ∧
  hazard_filter "No" Demo.flags_table = Ok Demo.flags_no ∧
  ∃ yes, hazard_filter "Yes" Demo.flags_table = Ok yes ∧
    rows yes ++ rows Demo.flags_no ++
      filter (λ r, ¬ flag_is true Demo.flags_table r ∧
                   ¬ flag_is false Demo.flags_table r) (rows Demo.flags_table)
    ≡ₚ rows Demo.flags_table.
Proof.
  assert (hazard_filter "No" Demo.flags_table = Ok Demo.flags_no) as H3
    by (vm_compute; reflexivity).
  split_and!; [exact demo_floats_differ|exact H3|].
  eexists. split; [reflexivity|].
  exact (hazard_filter_partitions Demo.flags_table _ Demo.flags_no
           demo_floats_differ eq_refl H3).
Defined.

Lemma hazard_filter_yes_then_no_witness :
  float_of_bool (F:=Z) true ≠ float_of_bool false ∧
  hazard_filter "No" Demo.flags_table = Ok Demo.flags_no ∧
  ∃ out, hazard_filter "Yes" Demo.flags_no = Ok out ∧ rows out = [].
Proof.
  assert (hazard_filter "No" Demo.flags_table = Ok Demo.flags_no) as H3
    by (vm_compute; reflexivity).
  split_and!; [exact demo_floats_differ|exact H3|].
  eexists. split; [reflexivity|].
  exact (proj1 (hazard_filter_yes_then_no Demo.flags_table Demo.flags_no _ "No" "Yes"
                  demo_floats_differ (or_intror (conj eq_refl eq_refl)) H3 eq_refl)).
Defined.

Lemma shown_rows_keep_combined_labels_witness :
  render Posix Demo.no_containers Demo.static_file Demo.live_one "Yes" =
    Ok Demo.page_yes ∧
  NoDup (rows (shown Demo.page_yes)).*1.
Proof.
  split; [exact demo_page_yes|].
  destruct (shown_rows_keep_combined_labels _ _ _ _ _ _ demo_page_yes)
    as (s & d & _ & _ & Hnd & _).
  exact Hnd.
Defined.

Lemma shown_table_shape_witness :
  render Posix Demo.no_containers Demo.static_file Demo.live_one "Yes" =
    Ok Demo.page_yes ∧
  ∃ d, fetch_nasa_data Demo.live_one = Ok d ∧
    columns (shown Demo.page_yes) =
      union_columns (columns Demo.static_file) (columns d).
Proof.
  split; [exact demo_page_yes|].
  destruct (shown_table_shape _ _ _ _ _ _ demo_page_yes) as (d & Hd & Hc & _).
  by exists d.
Defined.

Lemma page_needs_chart_columns_witness :
  render Posix Demo.no_containers Demo.static_file Demo.live_one "Yes" =
    Ok Demo.page_yes ∧
  Forall (λ c, c ∈ columns (shown Demo.page_yes))
         (numeric_columns ++ [hazard_column; "orbiting_body"]).
Proof.
  split; [exact demo_page_yes|].
  exact (page_needs_chart_columns _ _ _ _ _ _ demo_page_yes).
Defined.

Lemma to_csv_ignores_labels_witness :
  columns Demo.flags_no = columns (relabel Demo.flags_no) ∧
  (rows Demo.flags_no).*2 = (rows (relabel Demo.flags_no)).*2 ∧
  (rows Demo.flags_no).*1 ≠ (rows (relabel Demo.flags_no)).*1 ∧
  to_csv Posix Demo.no_containers Demo.flags_no =
    to_csv Posix Demo.no_containers (relabel Demo.flags_no).
Proof.
  assert (columns Demo.flags_no = columns (relabel Demo.flags_no)) as H1
    by reflexivity.
  assert ((rows Demo.flags_no).*2 = (rows (relabel Demo.flags_no)).*2) as H2
    by reflexivity.
  split_and!; [exact H1|exact H2|discriminate|].
  exact (to_csv_ignores_labels Posix Demo.no_containers _ _ H1 H2).
Defined.
